(** * influxdb/client.py: a shallow embedding of the InfluxDB client

    The client is a thin layer over two transports: a module-level
    [requests.Session] for HTTP and a per-instance datagram socket for UDP.
    Python objects are attribute dictionaries living in a heap; every method
    is a computation in a state-and-exception monad over a world made of the
    heap, the session, the sockets and the responses the network is about
    to deliver. *)

From stdpp Require Import gmap strings list fin_maps pretty.
From Stdlib Require Import ZArith Lia.

Set Warnings "-register-all".
Local Open Scope Z_scope.

(** ** Python values *)

(** The values the client handles: JSON-like data, plus socket handles
    (which only ever sit in the [udp_socket] attribute). *)
Inductive pyval :=
| VNone
| VBool (b : bool)
| VInt (z : Z)
| VStr (s : string)
| VList (l : list pyval)
| VDict (d : gmap string pyval)
| VSock (fd : nat).

(** Exceptions that can leave a method of the client. *)
Inductive exn :=
| AttributeError (attr : string)
| NameError (name : string)
| AssertionError
| TypeError
| KeyError (key : string)
| ValueError
| ConnectionError
| SocketError
| InfluxDBClientError (message : string) (code : Z).

Inductive pyresult (A : Type) :=
| Ok (a : A)
| Raise (e : exn).
Arguments Ok {A} a.
Arguments Raise {A} e.

(** Python truth value testing. *)
Definition truthy (v : pyval) : bool :=
  match v with
  | VNone => false
  | VBool b => b
  | VInt z => negb (z =? 0)
  | VStr s => negb (String.eqb s "")
  | VList l => match l with [] => false | _ => true end
  | VDict d => negb (bool_decide (d = ∅))
  | VSock _ => true
  end.

(** [x in "smu"] on strings is the substring test. *)
Fixpoint str_in (x s : string) : bool :=
  String.prefix x s ||
  match s with
  | EmptyString => false
  | String _ s' => str_in x s'
  end.

(** [v[key]] for a string key: only dictionaries accept it. *)
Definition py_getitem (v : pyval) (key : string) : pyresult pyval :=
  match v with
  | VDict d => match d !! key with
               | Some x => Ok x
               | None => Raise (KeyError key)
               end
  | _ => Raise TypeError
  end.

(** [len(v)]. *)
Definition py_len (v : pyval) : pyresult Z :=
  match v with
  | VList l => Ok (Z.of_nat (length l))
  | VStr s => Ok (Z.of_nat (String.length s))
  | VDict d => Ok (Z.of_nat (size d))
  | _ => Raise TypeError
  end.

(** [xrange(0, stop, step)], the Python 2 builtin the client uses: the
    multiples of [step] below [stop] when [step] is positive, nothing when
    it is negative, an error at zero. *)
Definition xrange (stop step : Z) : pyresult (list Z) :=
  if step =? 0 then Raise ValueError
  else if step <? 0 then Ok []
  else Ok ((λ k, Z.of_nat k * step) <$> seq 0 (Z.to_nat ((stop + step - 1) / step))).

(** Slice bounds are clamped to the sequence; negative ones count from
    the end. *)
Definition clamp_index (len k : Z) : nat :=
  Z.to_nat (if k <? 0 then Z.max 0 (len + k) else Z.min k len).

Definition slice_list {A} (l : list A) (i j : Z) : list A :=
  let len := Z.of_nat (length l) in
  let lo := clamp_index len i in
  let hi := clamp_index len j in
  take (hi - lo)%nat (drop lo l).

(** [v[i:j]]. *)
Definition py_slice (v : pyval) (i j : Z) : pyresult pyval :=
  match v with
  | VList l => Ok (VList (slice_list l i j))
  | VStr s =>
      let len := Z.of_nat (String.length s) in
      let lo := clamp_index len i in
      let hi := clamp_index len j in
      Ok (VStr (String.substring lo (hi - lo)%nat s))
  | _ => Raise TypeError
  end.

(** ** The runtime library

    Functions of the Python runtime, of the [json] module and of the
    requests library that the client calls but does not define. *)
Class PyLib := {
  (** [str(v)], which is what a [{k}] field of [str.format] expands to *)
  py_str : pyval → string;
  (** [json.dumps], which raises [TypeError] on what it cannot serialise *)
  json_dumps : pyval → pyresult string;
  (** [json.loads], which may raise [TypeError] or [ValueError] *)
  json_loads : string → pyresult pyval;
  (** [s.encode('utf-8')] *)
  encode_utf8 : string → string;
  (** [b.decode('utf8')] *)
  decode_utf8 : string → pyresult string;
  (** [response.json()] of requests on a response with this body: the
      library works out an encoding and decodes the body before it parses *)
  requests_json : string → pyresult pyval
}.

(** ** The world *)

Definition loc := nat.

(** A Python object: its attribute dictionary. *)
Abbreviation obj := (gmap string pyval).

(** What [session.request] is called with. *)
Record http_call := HttpCall {
  rq_method : string;
  rq_url : string;
  rq_params : gmap string pyval;
  rq_data : option string;
  rq_headers : pyval;
  rq_verify : pyval;
  rq_timeout : pyval
}.

Record response := Response {
  resp_status_code : Z;
  resp_content : string
}.

(** What [sendto] is called with. *)
Record datagram := Datagram {
  dg_payload : string;
  dg_host : pyval;
  dg_port : pyval
}.

Record world := World {
  (** client instances, by address *)
  w_heap : list obj;
  (** the module-level [session = requests.Session()]: the calls it has
      carried out so far *)
  w_session : list http_call;
  (** the responses the network delivers next, in order *)
  w_pending : list response;
  (** datagram sockets by descriptor, each with what was sent on it *)
  w_sockets : list (list datagram)
}.

Definition set_heap (h : list obj) (w : world) : world :=
  World h (w_session w) (w_pending w) (w_sockets w).

Definition set_sockets (s : list (list datagram)) (w : world) : world :=
  World (w_heap w) (w_session w) (w_pending w) s.

(** ** The monad of method bodies: state and exceptions *)

Definition M (A : Type) : Type := world → pyresult A * world.

Definition ret {A} (a : A) : M A := λ w, (Ok a, w).

Definition raise {A} (e : exn) : M A := λ w, (Raise e, w).

Definition bind {A B} (m : M A) (f : A → M B) : M B :=
  λ w, match m w with
       | (Ok a, w') => f a w'
       | (Raise e, w') => (Raise e, w')
       end.

Notation "x <- m ; k" := (bind m (λ x, k))
  (at level 20, m at level 100, k at level 200, only parsing).
Notation "m >> k" := (bind m (λ _, k))
  (at level 100, k at level 200, right associativity, only parsing).

Definition lift {A} (r : pyresult A) : M A := λ w, (r, w).

(** [for x in l: body]. *)
Fixpoint for_each {A} (l : list A) (body : A → M unit) : M unit :=
  match l with
  | [] => ret tt
  | x :: l' => body x >> for_each l' body
  end.

(** [try: m except TypeError: handler]. *)
Definition except_TypeError {A} (m handler : M A) : M A :=
  λ w, match m w with
       | (Raise TypeError, w') => handler w'
       | r => r
       end.

(** [assert b]. *)
Definition py_assert (b : bool) : M unit :=
  if b then ret tt else raise AssertionError.

(** [self.name]. *)
Definition getattr (self : loc) (name : string) : M pyval :=
  λ w, match w_heap w !! self with
       | Some o => match o !! name with
                   | Some v => (Ok v, w)
                   | None => (Raise (AttributeError name), w)
                   end
       | None => (Raise (AttributeError name), w)
       end.

(** [self.name = v]. *)
Definition setattr (self : loc) (name : string) (v : pyval) : M unit :=
  λ w, match w_heap w !! self with
       | Some o => (Ok tt, set_heap (<[self := <[name := v]> o]> (w_heap w)) w)
       | None => (Raise (AttributeError name), w)
       end.

(** Creation of a fresh instance, before [__init__] runs on it. *)
Definition new_object : M loc :=
  λ w, (Ok (length (w_heap w)), set_heap (w_heap w ++ [∅]) w).

(** [socket.socket(socket.AF_INET, socket.SOCK_DGRAM)]. *)
Definition socket_socket : M pyval :=
  λ w, (Ok (VSock (length (w_sockets w))), set_sockets (w_sockets w ++ [[]]) w).

(** Looking up the bound method [sendto] on a value: only sockets have it. *)
Definition sendto_method (v : pyval) : M nat :=
  match v with
  | VSock fd => ret fd
  | _ => raise (AttributeError "sendto")
  end.

(** [sock.sendto(payload, (host, port))]. *)
Definition sendto (fd : nat) (payload : string) (host port : pyval) : M unit :=
  λ w, match w_sockets w !! fd with
       | Some sent =>
           (Ok tt, set_sockets (<[fd := sent ++ [Datagram payload host port]]> (w_sockets w)) w)
       | None => (Raise SocketError, w)
       end.

(** [session.request(...)] on the module-level session: the call is
    carried out and the next response of the network comes back; with no
    response to deliver the transport raises. *)
Definition session_request (c : http_call) : M response :=
  λ w, match w_pending w with
       | r :: rest => (Ok r, World (w_heap w) (w_session w ++ [c]) rest (w_sockets w))
       | [] => (Raise ConnectionError,
                World (w_heap w) (w_session w ++ [c]) [] (w_sockets w))
       end.

(** The free variable [n] of [write_points]: it is not a local of the
    method, the module binds only [json], [socket], [requests], [session]
    and the two classes, and it is no builtin. *)
Definition load_name_n : M Z := raise (NameError "n").

(** ** class InfluxDBClient *)

Section InfluxDBClient.
Context `{PyLib}.

(** The [_headers] dictionary of every instance. *)
Definition default_headers : pyval :=
  VDict (<["Content-type" := VStr "application/json"]>
          (<["Accept" := VStr "text/plain"]> ∅)).

(** [InfluxDBClient(host, port, username, password, database, ssl,
    verify_ssl, timeout, use_udp, udp_port)]. *)
Definition __init__
    (host port username password database ssl verify_ssl timeout
       use_udp udp_port : pyval) : M loc :=
  self <- new_object ;
  setattr self "host" host >>
  setattr self "port" port >>
  setattr self "username" username >>
  setattr self "password" password >>
  setattr self "database" database >>
  setattr self "timeout" timeout >>
  setattr self "verify_ssl" verify_ssl >>
  setattr self "use_udp" use_udp >>
  setattr self "udp_port" udp_port >>
  (if truthy use_udp
   then (sock <- socket_socket ; setattr self "udp_socket" sock)
   else ret tt) >>
  setattr self "scheme" (VStr "http") >>
  (match ssl with
   | VBool true => setattr self "scheme" (VStr "https")
   | _ => ret tt
   end) >>
  scheme <- getattr self "scheme" ;
  host' <- getattr self "host" ;
  port' <- getattr self "port" ;
  setattr self "_baseurl"
    (VStr (py_str scheme +:+ "://" +:+ py_str host' +:+ ":" +:+ py_str port')) >>
  setattr self "_headers" default_headers >>
  ret self.

(** The body [request] hands to the session: nothing for [None], a string
    as it is, anything else through [json.dumps]. *)
Definition request_body (data : pyval) : pyresult (option string) :=
  match data with
  | VNone => Ok None
  | VStr s => Ok (Some s)
  | v => match json_dumps v with
         | Ok s => Ok (Some s)
         | Raise e => Raise e
         end
  end.

(** [request(self, url, method, params, data, status_code)]; [params] is
    [None] or a dictionary, [data] is [VNone] for no body. *)
Definition request (self : loc) (url method : string)
    (params : option (gmap string pyval)) (data : pyval)
    (status_code : Z) : M response :=
  baseurl <- getattr self "_baseurl" ;
  let url := py_str baseurl +:+ "/" +:+ url in
  let params := match params with None => ∅ | Some p => p end in
  u <- getattr self "_username" ;
  p <- getattr self "_password" ;
  let args : gmap string pyval := <["u" := u]> (<["p" := p]> ∅) in
  (* args.update(params): the entries of params win *)
  let args := params ∪ args in
  data <- lift (request_body data);
  headers <- getattr self "_headers" ;
  verify <- getattr self "_verify_ssl" ;
  timeout <- getattr self "_timeout" ;
  response <- session_request (HttpCall method url args data headers verify timeout) ;
  if bool_decide (resp_status_code response ≠ status_code)
  then raise (InfluxDBClientError (resp_content response) (resp_status_code response))
  else ret response.

Definition send_packet (self : loc) (packet : pyval) : M unit :=
  data <- lift (json_dumps packet);
  let byte := encode_utf8 data in
  sock <- getattr self "udp_socket" ;
  fd <- sendto_method sock ;
  host <- getattr self "_host" ;
  port <- getattr self "udp_port" ;
  sendto fd byte host port.

(** The part of [write_points] below the batching branch. *)
Definition write_points_send (self : loc) (data : list pyval)
    (time_precision : string) : M unit :=
  database <- getattr self "_database" ;
  let url := "db/" +:+ py_str database +:+ "/series" in
  let params : gmap string pyval := {[ "time_precision" := VStr time_precision ]} in
  use_udp <- getattr self "use_udp" ;
  if truthy use_udp
  then send_packet self (VList data)
  else request self url "POST" (Some params) (VList data) 200 >> ret tt.

(** [write_points(data, time_precision=...)], as the batching loop calls
    it: [batch_size] is left at [None]. *)
Definition write_points_whole (self : loc) (data : list pyval)
    (time_precision : string) : M unit :=
  py_assert (str_in time_precision "smu") >>
  write_points_send self data time_precision.

(** The body of the inner loop of [write_points]. *)
Definition write_batch (self : loc) (dataset points : pyval) (i : Z)
    (time_precision : string) : M unit :=
  name <- lift (py_getitem dataset "name") ;
  columns <- lift (py_getitem dataset "columns") ;
  n <- load_name_n ;
  chunk <- lift (py_slice points i (i + n)) ;
  let batch :=
    [VDict (<["name" := name]> (<["columns" := columns]> (<["points" := chunk]> ∅)))] in
  write_points_whole self batch time_precision.

(** [write_points(self, data, batch_size, time_precision)]; [batch_size]
    is [None] or an integer. *)
Definition write_points (self : loc) (data : list pyval)
    (batch_size : option Z) (time_precision : string) : M unit :=
  py_assert (str_in time_precision "smu") >>
  match batch_size with
  | Some step =>
      if truthy (VInt step)
      then
        for_each data (λ dataset,
          points <- lift (py_getitem dataset "points") ;
          len <- lift (py_len points) ;
          range <- lift (xrange len step) ;
          for_each range (λ i, write_batch self dataset points i time_precision))
      else write_points_send self data time_precision
  | None => write_points_send self data time_precision
  end.

(** The decoding at the end of [query]: [json.loads] on the raw body, and
    on the decoded body when that raises [TypeError]. *)
Definition loads_content (content : string) : M pyval :=
  except_TypeError
    (lift (json_loads content))
    (text <- lift (decode_utf8 content) ; lift (json_loads text)).

Definition query (self : loc) (query : string) (time_precision : string)
    (chunked : bool) : M pyval :=
  py_assert (str_in time_precision "smu") >>
  database <- getattr self "_database" ;
  let url := "db/" +:+ py_str database +:+ "/series" in
  let params : gmap string pyval :=
    <["q" := VStr query]>
      (<["time_precision" := VStr time_precision]>
         (<["chunked" := VBool chunked]> ∅)) in
  response <- request self url "GET" (Some params) VNone 200 ;
  loads_content (resp_content response).

Definition create_database (self : loc) (database : string) : M unit :=
  let url := "db" in
  let data := VDict {[ "name" := VStr database ]} in
  request self url "POST" None data 201 >> ret tt.

Definition delete_database (self : loc) (database : string) : M unit :=
  let url := "db/" +:+ database in
  request self url "DELETE" None VNone 204 >> ret tt.

Definition get_database_list (self : loc) : M pyval :=
  let url := "db" in
  response <- request self url "GET" None VNone 200 ;
  lift (json_loads (resp_content response)).

Definition delete_series (self : loc) (series : string) : M unit :=
  database <- getattr self "_database" ;
  let url := "db/" +:+ py_str database +:+ "/series/" +:+ series in
  request self url "DELETE" None VNone 204 >> ret tt.

(** [response.json()]: the decoding is the library's own. *)
Definition response_json (r : response) : M pyval :=
  lift (requests_json (resp_content r)).

Definition get_list_cluster_admins (self : loc) : M pyval :=
  response <- request self "cluster_admins" "GET" None VNone 200 ;
  response_json response.

Definition add_cluster_admin (self : loc) (new_username new_password : string)
    : M unit :=
  let data := VDict (<["name" := VStr new_username]>
                       (<["password" := VStr new_password]> ∅)) in
  request self "cluster_admins" "POST" None data 200 >> ret tt.

Definition update_cluster_admin_password (self : loc)
    (username new_password : string) : M unit :=
  let url := "cluster_admins/" +:+ username in
  let data := VDict {[ "password" := VStr new_password ]} in
  request self url "POST" None data 200 >> ret tt.

Definition delete_cluster_admin (self : loc) (username : string) : M unit :=
  let url := "cluster_admins/" +:+ username in
  request self url "DELETE" None VNone 204 >> ret tt.

Definition alter_database_admin (self : loc) (username : string)
    (is_admin : bool) : M unit :=
  database <- getattr self "_database" ;
  let url := "db/" +:+ py_str database +:+ "/users/" +:+ username in
  let data := VDict {[ "admin" := VBool is_admin ]} in
  request self url "POST" None data 200 >> ret tt.

Definition set_database_admin (self : loc) (username : string) : M unit :=
  alter_database_admin self username true.

Definition unset_database_admin (self : loc) (username : string) : M unit :=
  alter_database_admin self username false.

Definition get_database_users (self : loc) : M pyval :=
  database <- getattr self "_database" ;
  let url := "db/" +:+ py_str database +:+ "/users" in
  response <- request self url "GET" None VNone 200 ;
  response_json response.

Definition add_database_user (self : loc) (new_username new_password : string)
    : M unit :=
  database <- getattr self "_database" ;
  let url := "db/" +:+ py_str database +:+ "/users" in
  let data := VDict (<["name" := VStr new_username]>
                       (<["password" := VStr new_password]> ∅)) in
  request self url "POST" None data 200 >> ret tt.

(** [username == v] for a string [username]. *)
Definition str_eq (username : string) (v : pyval) : bool :=
  match v with
  | VStr s => String.eqb username s
  | _ => false
  end.

Definition update_database_user_password (self : loc)
    (username new_password : string) : M unit :=
  database <- getattr self "_database" ;
  let url := "db/" +:+ py_str database +:+ "/users/" +:+ username in
  let data := VDict {[ "password" := VStr new_password ]} in
  request self url "POST" None data 200 >>
  own <- getattr self "_username" ;
  if str_eq username own
  then setattr self "_password" (VStr new_password)
  else ret tt.

Definition delete_database_user (self : loc) (username : string) : M unit :=
  database <- getattr self "_database" ;
  let url := "db/" +:+ py_str database +:+ "/users/" +:+ username in
  request self url "DELETE" None VNone 200 >> ret tt.

(** ** The public interface as data *)

(** A method call on an instance, with its arguments. *)
Inductive operation :=
| Request (url method : string) (params : option (gmap string pyval))
    (data : pyval) (status_code : Z)
| SendPacket (packet : pyval)
| WritePoints (data : list pyval) (batch_size : option Z) (time_precision : string)
| Query (q : string) (time_precision : string) (chunked : bool)
| CreateDatabase (database : string)
| DeleteDatabase (database : string)
| GetDatabaseList
| DeleteSeries (series : string)
| GetListClusterAdmins
| AddClusterAdmin (new_username new_password : string)
| UpdateClusterAdminPassword (username new_password : string)
| DeleteClusterAdmin (username : string)
| SetDatabaseAdmin (username : string)
| UnsetDatabaseAdmin (username : string)
| AlterDatabaseAdmin (username : string) (is_admin : bool)
| GetDatabaseUsers
| AddDatabaseUser (new_username new_password : string)
| UpdateDatabaseUserPassword (username new_password : string)
| DeleteDatabaseUser (username : string).

(** What a method hands back. *)
Inductive retval :=
| RNone
| RValue (v : pyval)
| RResponse (r : response).

Definition returning_none (m : M unit) : M retval := m >> ret RNone.
Definition returning_value (m : M pyval) : M retval := v <- m; ret (RValue v).

(** Method dispatch. *)
Definition call (self : loc) (op : operation) : M retval :=
  match op with
  | Request url method params data status_code =>
      r <- request self url method params data status_code; ret (RResponse r)
  | SendPacket packet => returning_none (send_packet self packet)
  | WritePoints data batch_size time_precision =>
      returning_none (write_points self data batch_size time_precision)
  | Query q time_precision chunked =>
      returning_value (query self q time_precision chunked)
  | CreateDatabase database => returning_none (create_database self database)
  | DeleteDatabase database => returning_none (delete_database self database)
  | GetDatabaseList => returning_value (get_database_list self)
  | DeleteSeries series => returning_none (delete_series self series)
  | GetListClusterAdmins => returning_value (get_list_cluster_admins self)
  | AddClusterAdmin u p => returning_none (add_cluster_admin self u p)
  | UpdateClusterAdminPassword u p =>
      returning_none (update_cluster_admin_password self u p)
  | DeleteClusterAdmin u => returning_none (delete_cluster_admin self u)
  | SetDatabaseAdmin u => returning_none (set_database_admin self u)
  | UnsetDatabaseAdmin u => returning_none (unset_database_admin self u)
  | AlterDatabaseAdmin u a => returning_none (alter_database_admin self u a)
  | GetDatabaseUsers => returning_value (get_database_users self)
  | AddDatabaseUser u p => returning_none (add_database_user self u p)
  | UpdateDatabaseUserPassword u p =>
      returning_none (update_database_user_password self u p)
  | DeleteDatabaseUser u => returning_none (delete_database_user self u)
  end.

End InfluxDBClient.

(** ** Views of the world used in statements *)

(** The value of attribute [name] of the instance at [l], if any. *)
Definition attr (w : world) (l : loc) (name : string) : option pyval :=
  match w_heap w !! l with
  | Some o => o !! name
  | None => None
  end.

(** The world with the instance at [l] replaced by [o]. *)
Definition with_object (l : loc) (o : obj) (w : world) : world :=
  set_heap (<[l := o]> (w_heap w)) w.

(** A computation leaves the component [f] of the world as it found it. *)
Definition stable {A X} (f : world → X) (m : M A) : Prop :=
  ∀ w, f (m w).2 = f w.

(** A computation neither reads nor writes the instance at [l]: replacing
    that instance beforehand or afterwards comes to the same. *)
Definition ignores {A} (l : loc) (m : M A) : Prop :=
  ∀ o w, m (with_object l o w) = ((m w).1, with_object l o (m w).2).

(** The query parameters [request] sends: the auth pair, updated with the
    caller's dictionary. *)
Definition sent_params (params : option (gmap string pyval)) (u p : pyval)
    : gmap string pyval :=
  match params with None => ∅ | Some q => q end ∪ <["u" := u]> (<["p" := p]> ∅).

(** The tail of [request]: the session call and the status check. *)
Definition exchange (c : http_call) (status_code : Z) : M response :=
  response <- session_request c;
  if bool_decide (resp_status_code response ≠ status_code)
  then raise (InfluxDBClientError (resp_content response) (resp_status_code response))
  else ret response.

(** The dictionary a caller passes as [params], empty for [None]. *)
Definition given_params (params : option (gmap string pyval)) : gmap string pyval :=
  match params with None => ∅ | Some q => q end.

(** What the decoding at the end of [query] comes to. *)
Definition decoded_body `{PyLib} (content : string) : pyresult pyval :=
  match json_loads content with
  | Raise TypeError =>
      match decode_utf8 content with
      | Ok text => json_loads text
      | Raise e => Raise e
      end
  | r => r
  end.

(** How many times the transports have been used: calls carried out by
    the session plus datagrams sent on any socket. *)
Definition transport_calls (w : world) : nat :=
  (length (w_session w) + sum_list (length <$> w_sockets w))%nat.

(** Whether [batch_size] asks for batching. *)
Definition batching (batch_size : option Z) : bool :=
  match batch_size with
  | Some step => truthy (VInt step)
  | None => false
  end.

Definition is_ok {A} (r : pyresult A) : bool :=
  match r with Ok _ => true | Raise _ => false end.

(** The calls whose arguments let them get as far as the transport: the
    precision assertion passes, no batching loop is entered, and a packet
    handed to [send_packet] can be serialised. *)
Definition reaches_send_path `{PyLib} (op : operation) : bool :=
  match op with
  | SendPacket packet => is_ok (json_dumps packet)
  | WritePoints _ batch_size time_precision =>
      str_in time_precision "smu" && negb (batching batch_size)
  | Query _ time_precision _ => str_in time_precision "smu"
  | _ => true
  end.

(** The world after a series of calls on one instance, whatever each of
    them returned or raised. *)
Definition after_calls `{PyLib} (self : loc) (ops : list operation) (w : world)
    : world :=
  foldl (λ w op, (call self op w).2) w ops.

(** [v is True]. *)
Definition is_True (v : pyval) : bool :=
  match v with
  | VBool true => true
  | _ => false
  end.

(** The strings [x] with [x in "smu"]: the substrings of ["smu"]. *)
Definition substrings_of_smu : list string :=
  [""; "s"; "m"; "u"; "sm"; "mu"; "smu"].

(** The administrative methods that return nothing, each with the one
    request it makes: HTTP method, path, body and the status it expects.
    [database] is the [_database] attribute, which the methods scoped to a
    database need. *)
Definition admin_request `{PyLib} (op : operation) (database : option pyval)
    : option (string * string * pyval * Z) :=
  let scoped (f : string → string * string * pyval * Z) :=
    match database with
    | Some d => Some (f (py_str d))
    | None => None
    end in
  match op with
  | CreateDatabase d =>
      Some ("POST", "db", VDict {[ "name" := VStr d ]}, 201)
  | DeleteDatabase d => Some ("DELETE", "db/" +:+ d, VNone, 204)
  | DeleteSeries series =>
      scoped (λ db, ("DELETE", "db/" +:+ db +:+ "/series/" +:+ series, VNone, 204))
  | AddClusterAdmin u p =>
      Some ("POST", "cluster_admins",
            VDict (<["name" := VStr u]> (<["password" := VStr p]> ∅)), 200)
  | UpdateClusterAdminPassword u p =>
      Some ("POST", "cluster_admins/" +:+ u,
            VDict {[ "password" := VStr p ]}, 200)
  | DeleteClusterAdmin u => Some ("DELETE", "cluster_admins/" +:+ u, VNone, 204)
  | SetDatabaseAdmin u =>
      scoped (λ db, ("POST", "db/" +:+ db +:+ "/users/" +:+ u,
                     VDict {[ "admin" := VBool true ]}, 200))
  | UnsetDatabaseAdmin u =>
      scoped (λ db, ("POST", "db/" +:+ db +:+ "/users/" +:+ u,
                     VDict {[ "admin" := VBool false ]}, 200))
  | AlterDatabaseAdmin u a =>
      scoped (λ db, ("POST", "db/" +:+ db +:+ "/users/" +:+ u,
                     VDict {[ "admin" := VBool a ]}, 200))
  | AddDatabaseUser u p =>
      scoped (λ db, ("POST", "db/" +:+ db +:+ "/users",
                     VDict (<["name" := VStr u]> (<["password" := VStr p]> ∅)),
                     200))
  | DeleteDatabaseUser u =>
      scoped (λ db, ("DELETE", "db/" +:+ db +:+ "/users/" +:+ u, VNone, 200))
  | _ => None
  end.

(** The administrative methods that return nothing. *)
Definition administrative (op : operation) : bool :=
  match op with
  | CreateDatabase _ | DeleteDatabase _ | DeleteSeries _
  | AddClusterAdmin _ _ | UpdateClusterAdminPassword _ _ | DeleteClusterAdmin _
  | SetDatabaseAdmin _ | UnsetDatabaseAdmin _ | AlterDatabaseAdmin _ _
  | AddDatabaseUser _ _ | DeleteDatabaseUser _ => true
  | _ => false
  end.

(** What comes out of the one exchange of [request] when [pending] is
    what the network has to deliver and [status_code] is expected. *)
Definition request_outcome (pending : list response) (status_code : Z)
    : pyresult response :=
  match pending with
  | [] => Raise ConnectionError
  | resp :: _ =>
      if bool_decide (resp_status_code resp ≠ status_code)
      then Raise (InfluxDBClientError (resp_content resp) (resp_status_code resp))
      else Ok resp
  end.

(** The world after the session has carried out the call [c]. *)
Definition after_exchange (c : http_call) (w : world) : world :=
  World (w_heap w) (w_session w ++ [c]) (tail (w_pending w)) (w_sockets w).

(** A computation uses the transports at most once. *)
Definition at_most_one_send {A} (m : M A) : Prop :=
  ∀ w, (transport_calls (m w).2 ≤ transport_calls w + 1)%nat.

(** The methods that may use a socket. *)
Definition writes_points (op : operation) : bool :=
  match op with
  | WritePoints _ _ _ | SendPacket _ => true
  | _ => false
  end.

(** The attributes the methods read that [__init__] does not assign. *)
Definition private_fields : list string :=
  ["_username"; "_password"; "_verify_ssl"; "_timeout"; "_database"; "_host"].

(** The attributes [__init__] assigns on every instance. *)
Definition constructed_fields : list string :=
  ["host"; "port"; "username"; "password"; "database"; "timeout";
   "verify_ssl"; "use_udp"; "udp_port"; "scheme"; "_baseurl"; "_headers"].

(** The attribute dictionary [__init__] leaves behind; [fd] is the
    descriptor of the socket it opens when [use_udp] is true. *)
Definition constructed_object `{PyLib}
    (host port username password database ssl verify_ssl timeout
       use_udp udp_port : pyval) (fd : nat) : obj :=
  let o : obj :=
    <["udp_port" := udp_port]> (<["use_udp" := use_udp]>
    (<["verify_ssl" := verify_ssl]> (<["timeout" := timeout]>
    (<["database" := database]> (<["password" := password]>
    (<["username" := username]> (<["port" := port]>
    (<["host" := host]> ∅)))))))) in
  let o := if truthy use_udp then <["udp_socket" := VSock fd]> o else o in
  let o := <["scheme" := VStr "http"]> o in
  let o := match ssl with
           | VBool true => <["scheme" := VStr "https"]> o
           | _ => o
           end in
  let scheme := match ssl with
                | VBool true => VStr "https"
                | _ => VStr "http"
                end in
  <["_headers" := default_headers]>
    (<["_baseurl" := VStr (py_str scheme +:+ "://" +:+ py_str host +:+ ":"
                            +:+ py_str port)]> o).

(** ** A small runtime and sample instances, for running the client *)

Definition dquote : string := String (Ascii.ascii_of_nat 34) EmptyString.

Definition join_with (sep : string) (l : list string) : string :=
  match l with
  | [] => EmptyString
  | x :: l' => fold_left (λ acc y, acc +:+ sep +:+ y) l' x
  end.

Definition sample_str (v : pyval) : string :=
  match v with
  | VNone => "None"
  | VBool true => "True"
  | VBool false => "False"
  | VInt z => pretty z
  | VStr s => s
  | VList _ => "[...]"
  | VDict _ => "{...}"
  | VSock _ => "<socket>"
  end.

Fixpoint sample_dumps (v : pyval) : pyresult string :=
  match v with
  | VNone => Ok "null"
  | VBool true => Ok "true"
  | VBool false => Ok "false"
  | VInt z => Ok (pretty z)
  | VStr s => Ok (dquote +:+ s +:+ dquote)
  | VList l =>
      match foldr (λ x acc, match sample_dumps x, acc with
                            | Ok s, Ok ss => Ok (s :: ss)
                            | Raise e, _ => Raise e
                            | _, Raise e => Raise e
                            end) (Ok []) l with
      | Ok ss => Ok ("[" +:+ join_with ", " ss +:+ "]")
      | Raise e => Raise e
      end
  | VDict d => if bool_decide (d = ∅) then Ok "{}" else Ok "{...}"
  | VSock _ => Raise TypeError
  end.

(** Decodes just the bodies the examples use. *)
Definition sample_loads (s : string) : pyresult pyval :=
  if String.eqb s "[]" then Ok (VList [])
  else if String.eqb s "null" then Ok VNone
  else Raise ValueError.

#[local] Instance sample_lib : PyLib := {|
  py_str := sample_str;
  json_dumps := sample_dumps;
  json_loads := sample_loads;
  encode_utf8 := λ s, s;
  decode_utf8 := λ s, Ok s;
  requests_json := sample_loads
|}.

Definition empty_world : world := World [] [] [] [].

(** What a caller has to do after construction before any method can get
    through: give the instance the fields the methods read. *)
Definition set_private_fields (self : loc)
    (host username password database verify_ssl timeout : pyval) : M unit :=
  setattr self "_host" host >>
  setattr self "_username" username >>
  setattr self "_password" password >>
  setattr self "_database" database >>
  setattr self "_verify_ssl" verify_ssl >>
  setattr self "_timeout" timeout.

(** [InfluxDBClient(database='mydb', use_udp=use_udp)] with the private
    fields filled in from the same values. *)
Definition sample_client (use_udp : bool) : M loc :=
  self <- __init__ (VStr "localhost") (VInt 8086) (VStr "root") (VStr "root")
            (VStr "mydb") (VBool false) (VBool false) VNone (VBool use_udp)
            (VInt 4444);
  set_private_fields self (VStr "localhost") (VStr "root") (VStr "root")
    (VStr "mydb") (VBool false) VNone >>
  ret self.

(** One HTTP instance at address 0, nothing pending on the network. *)
Definition http_world : world := (sample_client false empty_world).2.

(** One UDP instance at address 0. *)
Definition udp_world : world := (sample_client true empty_world).2.

(** Two HTTP instances, at addresses 0 and 1. *)
Definition two_clients_world : world := (sample_client false http_world).2.

Definition with_pending (rs : list response) (w : world) : world :=
  World (w_heap w) (w_session w) rs (w_sockets w).

(** The dataset of the batching example. *)
Definition cpu_dataset : pyval :=
  VDict (<["name" := VStr "cpu"]>
          (<["columns" := VList [VStr "value"]]>
             (<["points" := VList [VList [VInt 1]; VList [VInt 2]; VList [VInt 3]]]> ∅))).

(** * Properties *)

Section Properties.
Context `{PyLib}.

(** ** Running the monad *)

Lemma bind_ret {A B} (a : A) (k : A → M B) w : bind (ret a) k w = k a w.
Proof. reflexivity. Qed.

Lemma bind_raise {A B} e (k : A → M B) w : bind (raise e) k w = (Raise e, w).
Proof. reflexivity. Qed.

Lemma bind_lift_ok {A B} (r : pyresult A) (a : A) (k : A → M B) w :
  r = Ok a → bind (lift r) k w = k a w.
Proof. intros ->. reflexivity. Qed.

Lemma bind_lift_raise {A B} (r : pyresult A) e (k : A → M B) w :
  r = Raise e → bind (lift r) k w = (Raise e, w).
Proof. intros ->. reflexivity. Qed.

Lemma getattr_attr self name w :
  getattr self name w =
  (match attr w self name with
   | Some v => Ok v
   | None => Raise (AttributeError name)
   end, w).
Proof.
  unfold getattr, attr.
  destruct (w_heap w !! self) as [o|]; [|reflexivity].
  destruct (o !! name); reflexivity.
Qed.

Lemma bind_getattr {B} self name (k : pyval → M B) w v :
  attr w self name = Some v → bind (getattr self name) k w = k v w.
Proof. intros Hv. unfold bind. rewrite getattr_attr, Hv. reflexivity. Qed.

Lemma bind_getattr_missing {B} self name (k : pyval → M B) w :
  attr w self name = None →
  bind (getattr self name) k w = (Raise (AttributeError name), w).
Proof. intros Hv. unfold bind. rewrite getattr_attr, Hv. reflexivity. Qed.

Lemma bind_assert_true {B} (k : unit → M B) w : bind (py_assert true) k w = k tt w.
Proof. reflexivity. Qed.

(** An attribute lookup sees the heap only. *)
Lemma attr_same_heap w w' self name :
  w_heap w' = w_heap w → attr w' self name = attr w self name.
Proof. unfold attr. intros ->. reflexivity. Qed.

(** ** Components of the world a computation leaves alone *)

Lemma stable_ret {A X} (f : world → X) (a : A) : stable f (ret a).
Proof. intros w. reflexivity. Qed.

Lemma stable_raise {A X} (f : world → X) e : stable f (raise e : M A).
Proof. intros w. reflexivity. Qed.

Lemma stable_lift {A X} (f : world → X) (r : pyresult A) : stable f (lift r).
Proof. intros w. reflexivity. Qed.

Lemma stable_bind {A B X} (f : world → X) (m : M A) (k : A → M B) :
  stable f m → (∀ a, stable f (k a)) → stable f (bind m k).
Proof.
  intros Hm Hk w. unfold bind. specialize (Hm w).
  destruct (m w) as [[a|e] w1]; simpl in *; [|exact Hm].
  rewrite Hk. exact Hm.
Qed.

Lemma stable_for_each {A X} (f : world → X) (l : list A) (body : A → M unit) :
  (∀ a, stable f (body a)) → stable f (for_each l body).
Proof.
  intros Hb. induction l as [|a l IH]; simpl.
  - apply stable_ret.
  - apply stable_bind; [apply Hb | intros _; exact IH].
Qed.

Lemma stable_except {A X} (f : world → X) (m h : M A) :
  stable f m → stable f h → stable f (except_TypeError m h).
Proof.
  intros Hm Hh w. unfold except_TypeError. specialize (Hm w).
  destruct (m w) as [[a|e] w1]; simpl in *; [exact Hm|].
  destruct e; try exact Hm. rewrite Hh. exact Hm.
Qed.

Lemma stable_py_assert {X} (f : world → X) b : stable f (py_assert b).
Proof. destruct b; intros w; reflexivity. Qed.

Lemma stable_getattr {X} (f : world → X) self name : stable f (getattr self name).
Proof. intros w. rewrite getattr_attr. reflexivity. Qed.

Lemma stable_sendto_method {X} (f : world → X) v : stable f (sendto_method v).
Proof. destruct v; intros w; reflexivity. Qed.

Lemma stable_load_name_n {X} (f : world → X) : stable f load_name_n.
Proof. intros w. reflexivity. Qed.

Lemma setattr_session self name v : stable w_session (setattr self name v).
Proof. intros w. unfold setattr. destruct (w_heap w !! self); reflexivity. Qed.

Lemma setattr_pending self name v : stable w_pending (setattr self name v).
Proof. intros w. unfold setattr. destruct (w_heap w !! self); reflexivity. Qed.

Lemma setattr_sockets self name v : stable w_sockets (setattr self name v).
Proof. intros w. unfold setattr. destruct (w_heap w !! self); reflexivity. Qed.

Lemma sendto_heap fd payload host port : stable w_heap (sendto fd payload host port).
Proof. intros w. unfold sendto. destruct (w_sockets w !! fd); reflexivity. Qed.

Lemma sendto_session fd payload host port :
  stable w_session (sendto fd payload host port).
Proof. intros w. unfold sendto. destruct (w_sockets w !! fd); reflexivity. Qed.

Lemma sendto_pending fd payload host port :
  stable w_pending (sendto fd payload host port).
Proof. intros w. unfold sendto. destruct (w_sockets w !! fd); reflexivity. Qed.

Lemma session_request_heap c : stable w_heap (session_request c).
Proof. intros w. unfold session_request. destruct (w_pending w); reflexivity. Qed.

Lemma session_request_sockets c : stable w_sockets (session_request c).
Proof. intros w. unfold session_request. destruct (w_pending w); reflexivity. Qed.

Create HintDb stable.
#[local] Hint Resolve stable_ret stable_raise stable_lift stable_py_assert
  stable_getattr stable_sendto_method stable_load_name_n
  setattr_session setattr_pending setattr_sockets
  sendto_heap sendto_session sendto_pending
  session_request_heap session_request_sockets : stable.

(** Splits a goal [stable f m] along the structure of [m]. *)
Ltac stable_step :=
  lazy zeta;
  lazymatch goal with
  | |- stable _ (bind _ _) => apply stable_bind; [|intros ?]
  | |- stable _ (for_each _ _) => apply stable_for_each; intros ?
  | |- stable _ (except_TypeError _ _) => apply stable_except
  | |- stable _ (if ?b then _ else _) => destruct b
  | |- stable _ (match ?x with _ => _ end) => destruct x
  | |- stable _ _ => solve [eauto with stable]
  end.
Ltac solve_stable := repeat stable_step.

Lemma request_heap self url method params data status_code :
  stable w_heap (request self url method params data status_code).
Proof. unfold request. solve_stable. Qed.

Lemma request_sockets self url method params data status_code :
  stable w_sockets (request self url method params data status_code).
Proof. unfold request. solve_stable. Qed.

Lemma send_packet_heap self packet : stable w_heap (send_packet self packet).
Proof. unfold send_packet. solve_stable. Qed.

Lemma send_packet_session self packet : stable w_session (send_packet self packet).
Proof. unfold send_packet. solve_stable. Qed.

Lemma send_packet_pending self packet : stable w_pending (send_packet self packet).
Proof. unfold send_packet. solve_stable. Qed.

#[local] Hint Resolve request_heap request_sockets send_packet_heap
  send_packet_session send_packet_pending : stable.

(** ** The constructor *)

Lemma setattr_last h o ses pend socks name v :
  setattr (length h) name v (World (h ++ [o]) ses pend socks) =
  (Ok tt, World (h ++ [<[name := v]> o]) ses pend socks).
Proof.
  unfold setattr, set_heap. cbn [w_heap w_session w_pending w_sockets].
  rewrite list_lookup_middle by reflexivity.
  rewrite insert_app_r_alt by reflexivity.
  rewrite Nat.sub_diag. reflexivity.
Qed.

Lemma attr_last h o ses pend socks name :
  attr (World (h ++ [o]) ses pend socks) (length h) name = o !! name.
Proof.
  unfold attr. cbn [w_heap].
  rewrite list_lookup_middle by reflexivity. reflexivity.
Qed.

Lemma bind_setattr_last {B} h o ses pend socks name v (k : unit → M B) :
  bind (setattr (length h) name v) k (World (h ++ [o]) ses pend socks) =
  k tt (World (h ++ [<[name := v]> o]) ses pend socks).
Proof. unfold bind. rewrite setattr_last. reflexivity. Qed.

(** [__init__] always succeeds, at a fresh address, and leaves exactly
    [constructed_object] there; it opens a socket when [use_udp] is true
    and touches nothing else. *)
Lemma init_run host port username password database ssl verify_ssl timeout
    use_udp udp_port w :
  __init__ host port username password database ssl verify_ssl timeout
    use_udp udp_port w =
  (Ok (length (w_heap w)),
   World
     (w_heap w ++ [constructed_object host port username password database ssl
                     verify_ssl timeout use_udp udp_port (length (w_sockets w))])
     (w_session w) (w_pending w)
     (if truthy use_udp then w_sockets w ++ [[]] else w_sockets w)).
Proof.
  destruct w as [h ses pend socks].
  unfold __init__, constructed_object.
  unfold bind at 1. unfold new_object, set_heap.
  cbn [w_heap w_session w_pending w_sockets].
  rewrite !bind_setattr_last.
  assert (Hget : ∀ (o : obj) name v B (k : pyval → M B) socks',
    o !! name = Some v →
    bind (getattr (length h) name) k (World (h ++ [o]) ses pend socks') =
    k v (World (h ++ [o]) ses pend socks')).
  { intros. apply bind_getattr. rewrite attr_last. assumption. }
  destruct (truthy use_udp).
  - unfold bind at 1. unfold bind at 1. unfold socket_socket, set_sockets.
    cbn [w_heap w_session w_pending w_sockets].
    rewrite setattr_last. rewrite bind_setattr_last.
    destruct ssl as [|[]| | | | |]; rewrite ?bind_ret, ?bind_setattr_last;
      (erewrite Hget by (simplify_map_eq; reflexivity));
      (erewrite Hget by (simplify_map_eq; reflexivity));
      (erewrite Hget by (simplify_map_eq; reflexivity));
      rewrite !bind_setattr_last; reflexivity.
  - rewrite bind_ret. rewrite bind_setattr_last.
    destruct ssl as [|[]| | | | |]; rewrite ?bind_ret, ?bind_setattr_last;
      (erewrite Hget by (simplify_map_eq; reflexivity));
      (erewrite Hget by (simplify_map_eq; reflexivity));
      (erewrite Hget by (simplify_map_eq; reflexivity));
      rewrite !bind_setattr_last; reflexivity.
Qed.

Lemma constructed_private host port username password database ssl verify_ssl
    timeout use_udp udp_port fd name :
  name ∈ private_fields →
  constructed_object host port username password database ssl verify_ssl
    timeout use_udp udp_port fd !! name = None.
Proof.
  unfold private_fields. intros Hin.
  repeat (apply elem_of_cons in Hin as [->|Hin]);
    try (by apply elem_of_nil in Hin);
    unfold constructed_object;
    destruct (truthy use_udp); destruct ssl as [|[]| | | | |];
    by simplify_map_eq.
Qed.

Lemma constructed_assigned host port username password database ssl verify_ssl
    timeout use_udp udp_port fd name :
  name ∈ constructed_fields →
  is_Some (constructed_object host port username password database ssl
             verify_ssl timeout use_udp udp_port fd !! name).
Proof.
  unfold constructed_fields. intros Hin.
  repeat (apply elem_of_cons in Hin as [->|Hin]);
    try (by apply elem_of_nil in Hin);
    unfold constructed_object;
    destruct (truthy use_udp); destruct ssl as [|[]| | | | |];
    simplify_map_eq; eauto.
Qed.

Lemma constructed_udp_socket host port username password database ssl
    verify_ssl timeout use_udp udp_port fd :
  constructed_object host port username password database ssl verify_ssl
    timeout use_udp udp_port fd !! "udp_socket" =
  if truthy use_udp then Some (VSock fd) else None.
Proof.
  unfold constructed_object.
  destruct (truthy use_udp); destruct ssl as [|[]| | | | |]; by simplify_map_eq.
Qed.

(** ** Failing computations *)

Lemma bind_fail {A B} (m : M A) (k : A → M B) e w w' :
  m w = (Raise e, w') → bind m k w = (Raise e, w').
Proof. intros Hm. unfold bind. rewrite Hm. reflexivity. Qed.

Lemma request_without_username self url method params data status_code w :
  is_Some (attr w self "_baseurl") →
  attr w self "_username" = None →
  request self url method params data status_code w =
  (Raise (AttributeError "_username"), w).
Proof.
  intros [b Hb] Hu. unfold request.
  erewrite bind_getattr by exact Hb.
  apply bind_getattr_missing. exact Hu.
Qed.

(** ** The request executor *)

(** With its fields in place and a body that serialises, [request] is one
    exchange over the session. *)
Lemma request_run self url method params data status_code w
    baseurl u p body headers verify timeout :
  attr w self "_baseurl" = Some baseurl →
  attr w self "_username" = Some u →
  attr w self "_password" = Some p →
  request_body data = Ok body →
  attr w self "_headers" = Some headers →
  attr w self "_verify_ssl" = Some verify →
  attr w self "_timeout" = Some timeout →
  request self url method params data status_code w =
  exchange (HttpCall method (py_str baseurl +:+ "/" +:+ url)
              (sent_params params u p) body headers verify timeout)
    status_code w.
Proof.
  intros Hb Hu Hp Hbody Hh Hv Ht. unfold request.
  erewrite bind_getattr by exact Hb.
  erewrite bind_getattr by exact Hu.
  erewrite bind_getattr by exact Hp.
  erewrite bind_lift_ok by exact Hbody.
  erewrite bind_getattr by exact Hh.
  erewrite bind_getattr by exact Hv.
  erewrite bind_getattr by exact Ht.
  reflexivity.
Qed.

(** Any run of [request] either stops before the session is touched, the
    world unchanged, or is one exchange over the session. *)
Lemma request_cases self url method params data status_code w :
  (∃ e, request self url method params data status_code w = (Raise e, w)) ∨
  (∃ baseurl u p body headers verify timeout,
     attr w self "_baseurl" = Some baseurl ∧
     attr w self "_username" = Some u ∧
     attr w self "_password" = Some p ∧
     request_body data = Ok body ∧
     attr w self "_headers" = Some headers ∧
     attr w self "_verify_ssl" = Some verify ∧
     attr w self "_timeout" = Some timeout ∧
     request self url method params data status_code w =
     exchange (HttpCall method (py_str baseurl +:+ "/" +:+ url)
                 (sent_params params u p) body headers verify timeout)
       status_code w).
Proof.
  destruct (attr w self "_baseurl") as [baseurl|] eqn:Hb; cycle 1.
  { left. eexists. unfold request. apply bind_getattr_missing, Hb. }
  destruct (attr w self "_username") as [u|] eqn:Hu; cycle 1.
  { left. eexists. unfold request. erewrite bind_getattr by exact Hb.
    apply bind_getattr_missing, Hu. }
  destruct (attr w self "_password") as [p|] eqn:Hp; cycle 1.
  { left. eexists. unfold request. erewrite bind_getattr by exact Hb.
    erewrite bind_getattr by exact Hu. apply bind_getattr_missing, Hp. }
  destruct (request_body data) as [body|e] eqn:Hbody; cycle 1.
  { left. eexists. unfold request. erewrite bind_getattr by exact Hb.
    erewrite bind_getattr by exact Hu. erewrite bind_getattr by exact Hp.
    apply bind_lift_raise, Hbody. }
  destruct (attr w self "_headers") as [headers|] eqn:Hh; cycle 1.
  { left. eexists. unfold request. erewrite bind_getattr by exact Hb.
    erewrite bind_getattr by exact Hu. erewrite bind_getattr by exact Hp.
    erewrite bind_lift_ok by exact Hbody. apply bind_getattr_missing, Hh. }
  destruct (attr w self "_verify_ssl") as [verify|] eqn:Hv; cycle 1.
  { left. eexists. unfold request. erewrite bind_getattr by exact Hb.
    erewrite bind_getattr by exact Hu. erewrite bind_getattr by exact Hp.
    erewrite bind_lift_ok by exact Hbody. erewrite bind_getattr by exact Hh.
    apply bind_getattr_missing, Hv. }
  destruct (attr w self "_timeout") as [timeout|] eqn:Ht; cycle 1.
  { left. eexists. unfold request. erewrite bind_getattr by exact Hb.
    erewrite bind_getattr by exact Hu. erewrite bind_getattr by exact Hp.
    erewrite bind_lift_ok by exact Hbody. erewrite bind_getattr by exact Hh.
    erewrite bind_getattr by exact Hv. apply bind_getattr_missing, Ht. }
  right. exists baseurl, u, p, body, headers, verify, timeout.
  repeat (split; [reflexivity|]).
  by apply request_run.
Qed.

(** What an exchange does to the world and what comes out of it. *)
Lemma exchange_run c status_code w :
  exchange c status_code w =
  match w_pending w with
  | [] => (Raise ConnectionError,
           World (w_heap w) (w_session w ++ [c]) [] (w_sockets w))
  | r :: rest =>
      (if bool_decide (resp_status_code r ≠ status_code)
       then Raise (InfluxDBClientError (resp_content r) (resp_status_code r))
       else Ok r,
       World (w_heap w) (w_session w ++ [c]) rest (w_sockets w))
  end.
Proof.
  unfold exchange, bind, session_request.
  destruct (w_pending w) as [|r rest]; [reflexivity|].
  destruct (bool_decide (resp_status_code r ≠ status_code)); reflexivity.
Qed.

Lemma exchange_session c status_code w :
  w_session (exchange c status_code w).2 = w_session w ++ [c].
Proof. rewrite exchange_run. destruct (w_pending w); reflexivity. Qed.

(** C5. Whenever [request] gets a response from the session, the outcome
    is decided by the status code alone: a code other than the expected one
    raises [InfluxDBClientError] carrying the raw body and that very code,
    and the expected code returns the response itself. *)
Theorem C5_unexpected_status_raises_api_error
    self url method params data status_code w resp rest :
  w_pending w = resp :: rest →
  w_session (request self url method params data status_code w).2 ≠ w_session w →
  (resp_status_code resp ≠ status_code →
   (request self url method params data status_code w).1 =
   Raise (InfluxDBClientError (resp_content resp) (resp_status_code resp))) ∧
  (resp_status_code resp = status_code →
   (request self url method params data status_code w).1 = Ok resp).
Proof.
  intros Hpend Hsent.
  destruct (request_cases self url method params data status_code w)
    as [[e He]|(b & u & p & body & h & v & t & _ & _ & _ & _ & _ & _ & _ & Hrun)].
  { rewrite He in Hsent. by destruct Hsent. }
  rewrite Hrun, exchange_run, Hpend. cbn [fst].
  split; intros Hcode.
  - by rewrite bool_decide_eq_true_2.
  - by rewrite bool_decide_eq_false_2 by (intros Hne; by apply Hne).
Qed.

Lemma sent_params_given params u p k v :
  given_params params !! k = Some v → sent_params params u p !! k = Some v.
Proof. intros Hk. unfold sent_params. by apply lookup_union_Some_l. Qed.

Lemma sent_params_auth params u p k :
  given_params params !! k = None →
  sent_params params u p !! k = (<["u" := u]> (<["p" := p]> ∅) : gmap string pyval) !! k.
Proof. intros Hk. unfold sent_params. by apply lookup_union_r. Qed.

(** C4, as the code has it. Whenever [request] reaches the session, the
    query parameters it sends are the pair [u], [p] taken from [_username]
    and [_password], updated with the caller's dictionary: every entry of
    the caller is sent as given, also under the keys [u] and [p], where it
    replaces the auth value; [u] and [p] carry the auth values exactly when
    the caller leaves them out; and nothing else is sent. *)
Theorem C4_caller_params_replace_auth
    self url method params data status_code w :
  w_session (request self url method params data status_code w).2 ≠ w_session w →
  ∃ c u p,
    w_session (request self url method params data status_code w).2 =
      w_session w ++ [c] ∧
    attr w self "_username" = Some u ∧
    attr w self "_password" = Some p ∧
    (∀ k v, given_params params !! k = Some v → rq_params c !! k = Some v) ∧
    (given_params params !! "u" = None → rq_params c !! "u" = Some u) ∧
    (given_params params !! "p" = None → rq_params c !! "p" = Some p) ∧
    (∀ k, given_params params !! k = None → k ≠ "u" → k ≠ "p" →
          rq_params c !! k = None).
Proof.
  intros Hsent.
  destruct (request_cases self url method params data status_code w)
    as [[e He]|(b & u & p & body & h & v & t & _ & Hu & Hp & _ & _ & _ & _ & Hrun)].
  { rewrite He in Hsent. by destruct Hsent. }
  eexists _, u, p. rewrite Hrun, exchange_session.
  split; [reflexivity|]. split; [exact Hu|]. split; [exact Hp|].
  cbn [rq_params]. split; [|split; [|split]].
  - intros k x Hk. by apply sent_params_given.
  - intros Hk. rewrite sent_params_auth by exact Hk. by simplify_map_eq.
  - intros Hk. rewrite sent_params_auth by exact Hk. by simplify_map_eq.
  - intros k Hk Hnu Hnp. rewrite sent_params_auth by exact Hk. by simplify_map_eq.
Qed.

Lemma loads_content_run content w :
  loads_content content w = (decoded_body content, w).
Proof.
  unfold loads_content, except_TypeError, decoded_body, bind, lift.
  destruct (json_loads content) as [v|e]; [reflexivity|].
  destruct e; try reflexivity.
  destruct (decode_utf8 content); reflexivity.
Qed.

(** With its fields in place, an accepted precision and a response
    pending, [query] is one GET followed by the decoding. *)
Lemma query_run self q time_precision chunked w
    baseurl u p database headers verify timeout resp rest :
  str_in time_precision "smu" = true →
  attr w self "_database" = Some database →
  attr w self "_baseurl" = Some baseurl →
  attr w self "_username" = Some u →
  attr w self "_password" = Some p →
  attr w self "_headers" = Some headers →
  attr w self "_verify_ssl" = Some verify →
  attr w self "_timeout" = Some timeout →
  w_pending w = resp :: rest →
  query self q time_precision chunked w =
  (if bool_decide (resp_status_code resp ≠ 200)
   then Raise (InfluxDBClientError (resp_content resp) (resp_status_code resp))
   else decoded_body (resp_content resp),
   World (w_heap w)
     (w_session w ++
        [HttpCall "GET"
           (py_str baseurl +:+ "/" +:+ "db/" +:+ py_str database +:+ "/series")
           (sent_params
              (Some (<["q" := VStr q]>
                       (<["time_precision" := VStr time_precision]>
                          (<["chunked" := VBool chunked]> ∅)))) u p)
           None headers verify timeout])
     rest (w_sockets w)).
Proof.
  intros Hin Hdb Hb Hu Hp Hh Hv Ht Hpend.
  unfold query. rewrite Hin, bind_assert_true.
  erewrite bind_getattr by exact Hdb.
  unfold bind.
  erewrite request_run by (first [eassumption | reflexivity]).
  rewrite exchange_run, Hpend.
  destruct (bool_decide (resp_status_code resp ≠ 200)); [reflexivity|].
  rewrite loads_content_run. reflexivity.
Qed.

(** X14. On an instance that has its fields, [query] with an accepted
    precision issues exactly one call on the session: a GET without body
    on [db/<database>/series] whose parameters [q], [time_precision] and
    [chunked] are the arguments as given (next to [u] and [p]); and when
    the response has status 200 the value returned is the JSON decoding of
    its body, which is [json.loads] of the body whenever that succeeds. *)
Theorem X14_query_with_fields_issues_get_and_decodes
    self q time_precision chunked w
    baseurl u p database headers verify timeout resp rest :
  str_in time_precision "smu" = true →
  attr w self "_database" = Some database →
  attr w self "_baseurl" = Some baseurl →
  attr w self "_username" = Some u →
  attr w self "_password" = Some p →
  attr w self "_headers" = Some headers →
  attr w self "_verify_ssl" = Some verify →
  attr w self "_timeout" = Some timeout →
  w_pending w = resp :: rest →
  let r := query self q time_precision chunked w in
  ∃ c,
    w_session r.2 = w_session w ++ [c] ∧
    rq_method c = "GET" ∧
    rq_url c = py_str baseurl +:+ "/" +:+ "db/" +:+ py_str database +:+ "/series" ∧
    rq_data c = None ∧
    rq_params c !! "q" = Some (VStr q) ∧
    rq_params c !! "time_precision" = Some (VStr time_precision) ∧
    rq_params c !! "chunked" = Some (VBool chunked) ∧
    w_pending r.2 = rest ∧
    (resp_status_code resp = 200 →
       r.1 = decoded_body (resp_content resp) ∧
       ∀ v, json_loads (resp_content resp) = Ok v → r.1 = Ok v).
Proof.
  intros Hin Hdb Hb Hu Hp Hh Hv Ht Hpend r. subst r.
  erewrite query_run by eassumption.
  eexists. cbn [fst snd w_session w_pending rq_method rq_url rq_data rq_params].
  repeat (split; [first [reflexivity | by apply sent_params_given; simplify_map_eq]|]).
  intros Hcode. rewrite bool_decide_eq_false_2 by (intros Hne; by apply Hne).
  split; [reflexivity|].
  intros v Hv'. unfold decoded_body. by rewrite Hv'.
Qed.

(** ** The write path *)

(** One round of the batching loop always raises, and before doing
    anything: at the latest when it evaluates [n]. *)
Lemma write_batch_raises self dataset points i time_precision w :
  ∃ e, write_batch self dataset points i time_precision w = (Raise e, w).
Proof.
  unfold write_batch, bind, lift, load_name_n, raise.
  destruct (py_getitem dataset "name"); [|eauto].
  destruct (py_getitem dataset "columns"); eauto.
Qed.

Lemma write_batch_NameError self dataset points i time_precision w name columns :
  py_getitem dataset "name" = Ok name →
  py_getitem dataset "columns" = Ok columns →
  write_batch self dataset points i time_precision w = (Raise (NameError "n"), w).
Proof.
  intros Hn Hc. unfold write_batch.
  erewrite bind_lift_ok by exact Hn.
  erewrite bind_lift_ok by exact Hc.
  reflexivity.
Qed.

Lemma batch_rounds_world self dataset points range time_precision :
  stable (λ w, w)
    (for_each range (λ i, write_batch self dataset points i time_precision)).
Proof.
  intros w. destruct range as [|i range]; [reflexivity|].
  cbn [for_each]. unfold bind.
  destruct (write_batch_raises self dataset points i time_precision w) as [e ->].
  reflexivity.
Qed.

(** A batched [write_points] leaves the whole world as it found it: the
    loop never gets to its write call. *)
Lemma write_points_batching_world self data batch_size time_precision w :
  batching batch_size = true →
  (write_points self data batch_size time_precision w).2 = w.
Proof.
  intros Hb. destruct batch_size as [step|]; [|discriminate].
  cbn [batching] in Hb.
  change ((λ w, w) (write_points self data (Some step) time_precision w).2 =
          (λ w, w) w).
  revert w. change (stable (λ w, w) (write_points self data (Some step) time_precision)).
  unfold write_points. rewrite Hb.
  apply stable_bind; [apply stable_py_assert|intros _].
  apply stable_for_each. intros dataset.
  apply stable_bind; [apply stable_lift|intros points].
  apply stable_bind; [apply stable_lift|intros len].
  apply stable_bind; [apply stable_lift|intros range].
  apply batch_rounds_world.
Qed.

(** Without batching, [write_points] is the assertion followed by the one
    send of the whole collection. *)
Lemma write_points_unbatched self data batch_size time_precision :
  batching batch_size = false →
  write_points self data batch_size time_precision =
  write_points_whole self data time_precision.
Proof.
  intros Hb. unfold write_points, write_points_whole.
  destruct batch_size as [step|]; [|reflexivity].
  cbn [batching] in Hb. rewrite Hb. reflexivity.
Qed.

Lemma send_packet_sockets_run self packet w payload fd host port sent :
  json_dumps packet = Ok payload →
  attr w self "udp_socket" = Some (VSock fd) →
  attr w self "_host" = Some host →
  attr w self "udp_port" = Some port →
  w_sockets w !! fd = Some sent →
  send_packet self packet w =
  (Ok tt,
   set_sockets (<[fd := sent ++ [Datagram (encode_utf8 payload) host port]]>
                  (w_sockets w)) w).
Proof.
  intros Hd Hs Hh Hp Hfd. unfold send_packet.
  erewrite bind_lift_ok by exact Hd.
  erewrite bind_getattr by exact Hs.
  cbn [sendto_method]. rewrite bind_ret.
  erewrite bind_getattr by exact Hh.
  erewrite bind_getattr by exact Hp.
  unfold sendto. rewrite Hfd. reflexivity.
Qed.

(** A [send_packet] that returns has sent exactly one datagram, the
    encoded JSON text of the packet, on the instance's own socket to
    [(_host, udp_port)]. *)
Lemma send_packet_ok_inv self packet w w' :
  send_packet self packet w = (Ok tt, w') →
  ∃ payload fd host port sent,
    json_dumps packet = Ok payload ∧
    attr w self "udp_socket" = Some (VSock fd) ∧
    attr w self "_host" = Some host ∧
    attr w self "udp_port" = Some port ∧
    w_sockets w !! fd = Some sent ∧
    w' = set_sockets (<[fd := sent ++ [Datagram (encode_utf8 payload) host port]]>
                        (w_sockets w)) w.
Proof.
  unfold send_packet. intros Hrun.
  destruct (json_dumps packet) as [payload|e] eqn:Hd; cycle 1.
  { erewrite bind_lift_raise in Hrun by reflexivity. discriminate. }
  erewrite bind_lift_ok in Hrun by reflexivity.
  destruct (attr w self "udp_socket") as [sock|] eqn:Hs; cycle 1.
  { erewrite bind_getattr_missing in Hrun by exact Hs. discriminate. }
  erewrite bind_getattr in Hrun by exact Hs.
  destruct sock as [| | | | | |fd]; try discriminate.
  cbn [sendto_method] in Hrun. rewrite bind_ret in Hrun.
  destruct (attr w self "_host") as [host|] eqn:Hh; cycle 1.
  { erewrite bind_getattr_missing in Hrun by exact Hh. discriminate. }
  erewrite bind_getattr in Hrun by exact Hh.
  destruct (attr w self "udp_port") as [port|] eqn:Hp; cycle 1.
  { erewrite bind_getattr_missing in Hrun by exact Hp. discriminate. }
  erewrite bind_getattr in Hrun by exact Hp.
  unfold sendto in Hrun.
  destruct (w_sockets w !! fd) as [sent|] eqn:Hfd; [|discriminate].
  injection Hrun as <-.
  by exists payload, fd, host, port, sent.
Qed.

(** A [request] that returns has made exactly one call on the session. *)
Lemma request_ok_inv self url method params data status_code w resp w' :
  request self url method params data status_code w = (Ok resp, w') →
  ∃ baseurl u p body headers verify timeout rest,
    attr w self "_baseurl" = Some baseurl ∧
    attr w self "_username" = Some u ∧
    attr w self "_password" = Some p ∧
    request_body data = Ok body ∧
    attr w self "_headers" = Some headers ∧
    attr w self "_verify_ssl" = Some verify ∧
    attr w self "_timeout" = Some timeout ∧
    w_pending w = resp :: rest ∧
    resp_status_code resp = status_code ∧
    w' = World (w_heap w)
           (w_session w ++
              [HttpCall method (py_str baseurl +:+ "/" +:+ url)
                 (sent_params params u p) body headers verify timeout])
           rest (w_sockets w).
Proof.
  intros Hrun.
  destruct (request_cases self url method params data status_code w)
    as [[e He]|(b & u & p & body & h & v & t & Hb & Hu & Hp & Hbody & Hh & Hv & Ht & Hex)].
  { rewrite He in Hrun. discriminate. }
  rewrite Hex, exchange_run in Hrun.
  destruct (w_pending w) as [|r rest] eqn:Hpend; [discriminate|].
  destruct (bool_decide (resp_status_code r ≠ status_code)) eqn:Hcode;
    [discriminate|].
  injection Hrun as -> <-.
  apply bool_decide_eq_false_1 in Hcode.
  exists b, u, p, body, h, v, t, rest.
  repeat (split; [done|]). split; [|reflexivity].
  destruct (decide (resp_status_code resp = status_code)); [done|by destruct Hcode].
Qed.

(** The unbatched write, case by case. *)
Lemma write_points_whole_run self data time_precision w :
  write_points_whole self data time_precision w =
  if str_in time_precision "smu" then
    match attr w self "_database" with
    | None => (Raise (AttributeError "_database"), w)
    | Some database =>
        match attr w self "use_udp" with
        | None => (Raise (AttributeError "use_udp"), w)
        | Some v =>
            if truthy v then send_packet self (VList data) w
            else bind (request self ("db/" +:+ py_str database +:+ "/series") "POST"
                         (Some {[ "time_precision" := VStr time_precision ]})
                         (VList data) 200)
                   (λ _, ret tt) w
        end
    end
  else (Raise AssertionError, w).
Proof.
  unfold write_points_whole.
  destruct (str_in time_precision "smu"); [|reflexivity].
  rewrite bind_assert_true. unfold write_points_send.
  destruct (attr w self "_database") as [database|] eqn:Hdb; cycle 1.
  { by apply bind_getattr_missing. }
  erewrite bind_getattr by exact Hdb.
  destruct (attr w self "use_udp") as [v|] eqn:Hv; cycle 1.
  { by apply bind_getattr_missing. }
  erewrite bind_getattr by exact Hv.
  destruct (truthy v); reflexivity.
Qed.

Lemma request_then_none_sockets self url method params data status_code :
  stable w_sockets
    (bind (request self url method params data status_code) (λ _, ret tt)).
Proof. solve_stable. Qed.

(** What [write_points] does by transport. On an instance whose [use_udp]
    is true it never touches the session, and a call that returns without
    batching has sent exactly one datagram; on an instance whose [use_udp]
    is false it never touches a socket, and a call that returns without
    batching has made exactly one POST. With the fields in place the call
    does return. *)
Lemma write_points_by_transport
    self data batch_size time_precision w v :
  attr w self "use_udp" = Some v →
  let r := write_points self data batch_size time_precision w in
  (truthy v = true →
     (w_session r.2 = w_session w ∧ w_pending r.2 = w_pending w) ∧
     (batching batch_size = false → r.1 = Ok tt →
        ∃ payload fd host port sent,
          json_dumps (VList data) = Ok payload ∧
          attr w self "udp_socket" = Some (VSock fd) ∧
          attr w self "_host" = Some host ∧
          attr w self "udp_port" = Some port ∧
          w_sockets w !! fd = Some sent ∧
          r.2 = set_sockets
                  (<[fd := sent ++ [Datagram (encode_utf8 payload) host port]]>
                     (w_sockets w)) w) ∧
     (∀ database payload fd host port sent,
        str_in time_precision "smu" = true →
        batching batch_size = false →
        attr w self "_database" = Some database →
        json_dumps (VList data) = Ok payload →
        attr w self "udp_socket" = Some (VSock fd) →
        attr w self "_host" = Some host →
        attr w self "udp_port" = Some port →
        w_sockets w !! fd = Some sent →
        r = (Ok tt,
             set_sockets
               (<[fd := sent ++ [Datagram (encode_utf8 payload) host port]]>
                  (w_sockets w)) w))) ∧
  (truthy v = false →
     w_sockets r.2 = w_sockets w ∧
     (batching batch_size = false → r.1 = Ok tt →
        ∃ payload baseurl database u p headers verify timeout rest,
          json_dumps (VList data) = Ok payload ∧
          attr w self "_database" = Some database ∧
          attr w self "_baseurl" = Some baseurl ∧
          r.2 = World (w_heap w)
                  (w_session w ++
                     [HttpCall "POST"
                        (py_str baseurl +:+ "/" +:+ "db/" +:+ py_str database
                           +:+ "/series")
                        (sent_params
                           (Some {[ "time_precision" := VStr time_precision ]}) u p)
                        (Some payload) headers verify timeout])
                  rest (w_sockets w)) ∧
     (∀ payload baseurl database u p headers verify timeout resp rest,
        str_in time_precision "smu" = true →
        batching batch_size = false →
        attr w self "_database" = Some database →
        attr w self "_baseurl" = Some baseurl →
        attr w self "_username" = Some u →
        attr w self "_password" = Some p →
        json_dumps (VList data) = Ok payload →
        attr w self "_headers" = Some headers →
        attr w self "_verify_ssl" = Some verify →
        attr w self "_timeout" = Some timeout →
        w_pending w = resp :: rest →
        resp_status_code resp = 200 →
        r = (Ok tt,
             World (w_heap w)
               (w_session w ++
                  [HttpCall "POST"
                     (py_str baseurl +:+ "/" +:+ "db/" +:+ py_str database
                        +:+ "/series")
                     (sent_params
                        (Some {[ "time_precision" := VStr time_precision ]}) u p)
                     (Some payload) headers verify timeout])
               rest (w_sockets w)))).
Proof.
  intros Hudp r.
  assert (Hbatched : batching batch_size = true → r.2 = w).
  { intros Hb. by apply write_points_batching_world. }
  assert (Hwhole : batching batch_size = false →
    r = if str_in time_precision "smu" then
          match attr w self "_database" with
          | None => (Raise (AttributeError "_database"), w)
          | Some database =>
              if truthy v then send_packet self (VList data) w
              else bind (request self ("db/" +:+ py_str database +:+ "/series")
                           "POST"
                           (Some {[ "time_precision" := VStr time_precision ]})
                           (VList data) 200)
                     (λ _, ret tt) w
          end
        else (Raise AssertionError, w)).
  { intros Hb. subst r. rewrite write_points_unbatched by exact Hb.
    rewrite write_points_whole_run, Hudp. reflexivity. }
  clearbody r. split; intros Hv; rewrite Hv in Hwhole.
  - split; [|split].
    + destruct (batching batch_size) eqn:Hb.
      { by rewrite Hbatched. }
      rewrite Hwhole by reflexivity.
      destruct (str_in time_precision "smu"); [|done].
      destruct (attr w self "_database"); [|done].
      split; [apply send_packet_session|apply send_packet_pending].
    + intros Hb Hok. rewrite Hwhole in Hok |- * by exact Hb.
      destruct (str_in time_precision "smu"); [|discriminate].
      destruct (attr w self "_database"); [|discriminate].
      destruct (send_packet self (VList data) w) as [[[]|e] w'] eqn:Hsend;
        [|discriminate].
      apply send_packet_ok_inv in Hsend.
      destruct Hsend as (payload & fd & host & port & sent & ? & ? & ? & ? & ? & ->).
      by exists payload, fd, host, port, sent.
    + intros database payload fd host port sent Hin Hb Hdb Hd Hs Hh Hp Hfd.
      rewrite Hwhole, Hin, Hdb by exact Hb.
      by apply send_packet_sockets_run.
  - split; [|split].
    + destruct (batching batch_size) eqn:Hb.
      { by rewrite Hbatched. }
      rewrite Hwhole by reflexivity.
      destruct (str_in time_precision "smu"); [|done].
      destruct (attr w self "_database"); [|done].
      apply request_then_none_sockets.
    + intros Hb Hok. rewrite Hwhole in Hok |- * by exact Hb.
      destruct (str_in time_precision "smu"); [|discriminate].
      destruct (attr w self "_database") as [database|]; [|discriminate].
      unfold bind in Hok |- *.
      destruct (request self ("db/" +:+ py_str database +:+ "/series") "POST"
                  (Some {[ "time_precision" := VStr time_precision ]})
                  (VList data) 200 w) as [[resp|e] w'] eqn:Hreq; [|discriminate].
      apply request_ok_inv in Hreq.
      destruct Hreq as (b & u & p & body & h & ver & t & rest
                        & Hb' & _ & _ & Hbody & _ & _ & _ & _ & _ & ->).
      cbn [request_body] in Hbody.
      destruct (json_dumps (VList data)) as [payload|] eqn:Hd; [|discriminate].
      injection Hbody as <-.
      by exists payload, b, database, u, p, h, ver, t, rest.
    + intros payload baseurl database u p headers verify timeout resp rest
        Hin Hb Hdb Hbase Hu Hp Hd Hh Hver Ht Hpend Hcode.
      rewrite Hwhole, Hin, Hdb by exact Hb.
      unfold bind.
      erewrite request_run; try eassumption; cycle 1.
      { cbn [request_body]. rewrite Hd. reflexivity. }
      rewrite exchange_run, Hpend.
      rewrite bool_decide_eq_false_2 by (intros Hne; by apply Hne).
      reflexivity.
Qed.

Lemma datagrams_after_send (socks : list (list datagram)) fd sent d :
  socks !! fd = Some sent →
  sum_list (length <$> <[fd := sent ++ [d]]> socks) =
  S (sum_list (length <$> socks)).
Proof.
  revert fd. induction socks as [|s socks IH]; intros fd Hfd; [done|].
  destruct fd as [|fd]; simpl in *.
  - injection Hfd as ->. rewrite length_app. simpl. lia.
  - specialize (IH fd Hfd). unfold fmap in IH. lia.
Qed.

(** A [send_packet] that raises has sent nothing. *)
Lemma send_packet_raise_world self packet w e w' :
  send_packet self packet w = (Raise e, w') → w' = w.
Proof.
  unfold send_packet. intros Hrun.
  destruct (json_dumps packet) as [payload|e0] eqn:Hd; cycle 1.
  { erewrite bind_lift_raise in Hrun by reflexivity. congruence. }
  erewrite bind_lift_ok in Hrun by reflexivity.
  destruct (attr w self "udp_socket") as [sock|] eqn:Hs; cycle 1.
  { erewrite bind_getattr_missing in Hrun by exact Hs. congruence. }
  erewrite bind_getattr in Hrun by exact Hs.
  destruct sock as [| | | | | |fd];
    try (cbn [sendto_method] in Hrun; rewrite bind_raise in Hrun; congruence).
  cbn [sendto_method] in Hrun. rewrite bind_ret in Hrun.
  destruct (attr w self "_host") as [host|] eqn:Hh; cycle 1.
  { erewrite bind_getattr_missing in Hrun by exact Hh. congruence. }
  erewrite bind_getattr in Hrun by exact Hh.
  destruct (attr w self "udp_port") as [port|] eqn:Hp; cycle 1.
  { erewrite bind_getattr_missing in Hrun by exact Hp. congruence. }
  erewrite bind_getattr in Hrun by exact Hp.
  unfold sendto in Hrun.
  destruct (w_sockets w !! fd); congruence.
Qed.

(** The unbatched write uses a transport at most once, and exactly once
    when it returns. *)
Lemma write_points_whole_transport_calls self data time_precision w :
  (transport_calls (write_points_whole self data time_precision w).2
   ≤ transport_calls w + 1)%nat ∧
  ((write_points_whole self data time_precision w).1 = Ok tt →
   transport_calls (write_points_whole self data time_precision w).2
   = (transport_calls w + 1)%nat).
Proof.
  rewrite write_points_whole_run.
  destruct (str_in time_precision "smu"); [|split; [cbn; lia|discriminate]].
  destruct (attr w self "_database") as [database|];
    [|split; [cbn; lia|discriminate]].
  destruct (attr w self "use_udp") as [v|]; [|split; [cbn; lia|discriminate]].
  destruct (truthy v).
  - destruct (send_packet self (VList data) w) as [[[]|e] w'] eqn:Hsend.
    + apply send_packet_ok_inv in Hsend.
      destruct Hsend as (payload & fd & host & port & sent & _ & _ & _ & _ & Hfd & ->).
      unfold transport_calls, set_sockets.
      cbn [fst snd w_session w_sockets].
      rewrite (datagrams_after_send _ _ _ _ Hfd). split; [lia|intros _; lia].
    + apply send_packet_raise_world in Hsend as ->.
      split; [cbn; lia|discriminate].
  - unfold bind.
    destruct (request_cases self ("db/" +:+ py_str database +:+ "/series") "POST"
                (Some {[ "time_precision" := VStr time_precision ]})
                (VList data) 200 w)
      as [[e ->]|(b & u & p & body & h & ver & t & _ & _ & _ & _ & _ & _ & _ & ->)].
    { split; [cbn; lia|discriminate]. }
    rewrite exchange_run.
    destruct (w_pending w) as [|resp rest].
    { unfold transport_calls. cbn [fst snd w_session w_sockets].
      rewrite length_app. cbn [length]. split; [lia|discriminate]. }
    destruct (bool_decide (resp_status_code resp ≠ 200));
      unfold transport_calls; cbn [fst snd w_session w_sockets ret];
      rewrite length_app; cbn [length]; split; (lia || discriminate || intros _; lia).
Qed.

Lemma xrange_starts_at_zero stop step :
  0 < stop → 0 < step → ∃ more, xrange stop step = Ok (0 :: more).
Proof.
  intros Hstop Hstep. unfold xrange.
  rewrite (proj2 (Z.eqb_neq step 0)) by lia.
  rewrite (proj2 (Z.ltb_ge step 0)) by lia.
  assert (1 ≤ (stop + step - 1) / step) as Hq
    by (apply Z.div_le_lower_bound; lia).
  destruct (Z.to_nat ((stop + step - 1) / step)) as [|k] eqn:Hk; [lia|].
  cbn [seq fmap list_fmap]. eauto.
Qed.

(** A batched write whose first dataset has a name, columns and at least
    one row raises [NameError] in the first round. *)
Lemma write_points_batched_NameError
    self dataset others name columns row rows step time_precision w :
  str_in time_precision "smu" = true →
  0 < step →
  py_getitem dataset "points" = Ok (VList (row :: rows)) →
  py_getitem dataset "name" = Ok name →
  py_getitem dataset "columns" = Ok columns →
  write_points self (dataset :: others) (Some step) time_precision w =
  (Raise (NameError "n"), w).
Proof.
  intros Hin Hstep Hpoints Hname Hcolumns.
  unfold write_points. rewrite Hin, bind_assert_true.
  assert (truthy (VInt step) = true) as ->.
  { cbn. apply negb_true_iff, Z.eqb_neq. lia. }
  cbn [for_each]. apply bind_fail.
  erewrite bind_lift_ok by exact Hpoints.
  erewrite bind_lift_ok by reflexivity.
  destruct (xrange_starts_at_zero (Z.of_nat (length (row :: rows))) step)
    as [more Hrange]; [cbn [length]; lia|exact Hstep|].
  erewrite bind_lift_ok by exact Hrange.
  cbn [for_each]. apply bind_fail.
  by eapply write_batch_NameError.
Qed.

(** C1, what the code does on the example of the specification. Writing
    the one dataset [cpu] with points [[1],[2],[3]] and [batch_size=2]
    raises [NameError] on the undefined [n] in the first round of the
    loop, before any write call: the world is untouched, where two write
    calls were promised. So does every batched write with a positive batch
    size whose first dataset has a row; and no batched call whatsoever
    reaches a transport. *)
Theorem C1_batching_raises_NameError_before_any_write self w :
  write_points self [cpu_dataset] (Some 2) "s" w = (Raise (NameError "n"), w) ∧
  (∀ dataset others name columns row rows step time_precision,
     str_in time_precision "smu" = true →
     0 < step →
     py_getitem dataset "points" = Ok (VList (row :: rows)) →
     py_getitem dataset "name" = Ok name →
     py_getitem dataset "columns" = Ok columns →
     write_points self (dataset :: others) (Some step) time_precision w =
     (Raise (NameError "n"), w)) ∧
  (∀ data step time_precision,
     step ≠ 0 → (write_points self data (Some step) time_precision w).2 = w).
Proof.
  split; [|split].
  - vm_compute. reflexivity.
  - intros. by eapply write_points_batched_NameError.
  - intros data step time_precision Hstep.
    apply write_points_batching_world. cbn.
    apply negb_true_iff. by apply Z.eqb_neq.
Qed.

(** ** A client straight out of the constructor *)

(** Every call that gets as far as the transport on an instance lacking
    [_username], [_database] and [_host] stops at an attribute lookup, with
    the world as it was. *)
Lemma call_without_private_fields self op w :
  reaches_send_path op = true →
  is_Some (attr w self "_baseurl") →
  attr w self "_username" = None →
  attr w self "_database" = None →
  attr w self "_host" = None →
  (∀ v, attr w self "udp_socket" = Some v → ∃ fd, v = VSock fd) →
  ∃ name, attr w self name = None ∧
          call self op w = (Raise (AttributeError name), w).
Proof.
  intros Hreach Hbase Huser Hdb Hhost Hsock.
  pose proof (λ url method params data sc,
    request_without_username self url method params data sc w Hbase Huser) as Hreq.
  destruct op; cbn [reaches_send_path] in Hreach;
    unfold call, returning_none, returning_value.
  - exists "_username". split; [done|]. apply bind_fail, Hreq.
  - destruct (json_dumps packet) as [s|e] eqn:Hdumps; [|discriminate].
    unfold send_packet.
    destruct (attr w self "udp_socket") as [v|] eqn:Hv.
    + destruct (Hsock v eq_refl) as [fd ->].
      exists "_host". split; [done|]. apply bind_fail.
      erewrite bind_lift_ok by exact Hdumps.
      erewrite bind_getattr by exact Hv.
      cbn [sendto_method]. rewrite bind_ret.
      apply bind_getattr_missing, Hhost.
    + exists "udp_socket". split; [done|]. apply bind_fail.
      erewrite bind_lift_ok by exact Hdumps.
      apply bind_getattr_missing, Hv.
  - apply andb_true_iff in Hreach as [Hin Hbatch].
    apply negb_true_iff in Hbatch.
    exists "_database". split; [done|]. apply bind_fail.
    unfold write_points. rewrite Hin, bind_assert_true.
    assert (write_points_send self data time_precision w =
            (Raise (AttributeError "_database"), w)) as Hsend.
    { unfold write_points_send. apply bind_getattr_missing, Hdb. }
    destruct batch_size as [step|]; [|exact Hsend].
    cbn [batching] in Hbatch. rewrite Hbatch. exact Hsend.
  - exists "_database". split; [done|]. apply bind_fail.
    unfold query. rewrite Hreach, bind_assert_true.
    apply bind_getattr_missing, Hdb.
  - exists "_username". split; [done|]. apply bind_fail.
    unfold create_database. apply bind_fail, Hreq.
  - exists "_username". split; [done|]. apply bind_fail.
    unfold delete_database. apply bind_fail, Hreq.
  - exists "_username". split; [done|]. apply bind_fail.
    unfold get_database_list. apply bind_fail, Hreq.
  - exists "_database". split; [done|]. apply bind_fail.
    unfold delete_series. apply bind_getattr_missing, Hdb.
  - exists "_username". split; [done|]. apply bind_fail.
    unfold get_list_cluster_admins. apply bind_fail, Hreq.
  - exists "_username". split; [done|]. apply bind_fail.
    unfold add_cluster_admin. apply bind_fail, Hreq.
  - exists "_username". split; [done|]. apply bind_fail.
    unfold update_cluster_admin_password. apply bind_fail, Hreq.
  - exists "_username". split; [done|]. apply bind_fail.
    unfold delete_cluster_admin. apply bind_fail, Hreq.
  - exists "_database". split; [done|]. apply bind_fail.
    unfold set_database_admin, alter_database_admin.
    apply bind_getattr_missing, Hdb.
  - exists "_database". split; [done|]. apply bind_fail.
    unfold unset_database_admin, alter_database_admin.
    apply bind_getattr_missing, Hdb.
  - exists "_database". split; [done|]. apply bind_fail.
    unfold alter_database_admin. apply bind_getattr_missing, Hdb.
  - exists "_database". split; [done|]. apply bind_fail.
    unfold get_database_users. apply bind_getattr_missing, Hdb.
  - exists "_database". split; [done|]. apply bind_fail.
    unfold add_database_user. apply bind_getattr_missing, Hdb.
  - exists "_database". split; [done|]. apply bind_fail.
    unfold update_database_user_password. apply bind_getattr_missing, Hdb.
  - exists "_database". split; [done|]. apply bind_fail.
    unfold delete_database_user. apply bind_getattr_missing, Hdb.
Qed.

(** On such an instance no call at all changes the world: those that do
    not get as far as the transport stop even earlier. *)
Lemma call_world_without_private_fields self op w :
  is_Some (attr w self "_baseurl") →
  attr w self "_username" = None →
  attr w self "_database" = None →
  attr w self "_host" = None →
  (∀ v, attr w self "udp_socket" = Some v → ∃ fd, v = VSock fd) →
  (call self op w).2 = w.
Proof.
  intros Hbase Huser Hdb Hhost Hsock.
  destruct (reaches_send_path op) eqn:Hreach.
  { destruct (call_without_private_fields self op w Hreach Hbase Huser Hdb
                Hhost Hsock) as (name & _ & ->). reflexivity. }
  destruct op; cbn [reaches_send_path] in Hreach; try discriminate;
    unfold call, returning_none, returning_value.
  - destruct (json_dumps packet) as [s|e] eqn:Hdumps; [discriminate|].
    erewrite bind_fail; [reflexivity|].
    unfold send_packet. apply bind_lift_raise, Hdumps.
  - unfold bind.
    pose proof (write_points_batching_world self data batch_size time_precision w)
      as Hbatched.
    destruct (str_in time_precision "smu") eqn:Hin.
    + cbn in Hreach. apply negb_false_iff in Hreach.
      specialize (Hbatched Hreach).
      destruct (write_points self data batch_size time_precision w)
        as [[[]|e] w']; cbn [snd] in Hbatched |- *; by subst.
    + unfold write_points. rewrite Hin. reflexivity.
  - unfold query. rewrite Hreach. reflexivity.
Qed.

Lemma after_calls_without_private_fields self ops w :
  is_Some (attr w self "_baseurl") →
  attr w self "_username" = None →
  attr w self "_database" = None →
  attr w self "_host" = None →
  (∀ v, attr w self "udp_socket" = Some v → ∃ fd, v = VSock fd) →
  after_calls self ops w = w.
Proof.
  intros Hbase Huser Hdb Hhost Hsock. unfold after_calls.
  induction ops as [|op ops IH]; [reflexivity|].
  cbn [foldl]. by rewrite call_world_without_private_fields.
Qed.

(** C2. A client that comes out of [__init__] has [host], [username],
    [password], [verify_ssl], [timeout] and [database] but none of the
    underscored names the methods read. So whatever was called on it
    before, the world is still the one the constructor left, and every
    call that gets as far as the HTTP or UDP send path ends in an
    [AttributeError] on an attribute that is not there, with the world
    (session, sockets, pending responses and heap) unchanged: no network
    I/O. *)
Theorem C2_constructed_client_raises_AttributeError
    host port username password database ssl verify_ssl timeout use_udp
    udp_port w ops op :
  reaches_send_path op = true →
  let r := __init__ host port username password database ssl verify_ssl
             timeout use_udp udp_port w in
  ∃ self, r.1 = Ok self ∧
    (∀ name, name ∈ private_fields → attr r.2 self name = None) ∧
    (∀ name, name ∈ constructed_fields → is_Some (attr r.2 self name)) ∧
    after_calls self ops r.2 = r.2 ∧
    ∃ name, attr r.2 self name = None ∧
            call self op (after_calls self ops r.2) =
            (Raise (AttributeError name), r.2).
Proof.
  intros Hreach r. subst r. rewrite init_run. cbn [fst snd].
  exists (length (w_heap w)). split; [reflexivity|].
  set (w1 := World
      (w_heap w ++ [constructed_object host port username password database ssl
                      verify_ssl timeout use_udp udp_port (length (w_sockets w))])
      (w_session w) (w_pending w)
      (if truthy use_udp then w_sockets w ++ [[]] else w_sockets w)).
  assert (Hpriv : ∀ name, name ∈ private_fields →
                          attr w1 (length (w_heap w)) name = None).
  { intros name Hin. subst w1. rewrite attr_last. by apply constructed_private. }
  assert (Hbase : is_Some (attr w1 (length (w_heap w)) "_baseurl")).
  { subst w1. rewrite attr_last. apply constructed_assigned.
    unfold constructed_fields. set_solver. }
  assert (Huser : attr w1 (length (w_heap w)) "_username" = None)
    by (apply Hpriv; unfold private_fields; set_solver).
  assert (Hdb : attr w1 (length (w_heap w)) "_database" = None)
    by (apply Hpriv; unfold private_fields; set_solver).
  assert (Hhost : attr w1 (length (w_heap w)) "_host" = None)
    by (apply Hpriv; unfold private_fields; set_solver).
  assert (Hsock : ∀ v, attr w1 (length (w_heap w)) "udp_socket" = Some v →
                       ∃ fd, v = VSock fd).
  { intros v. subst w1. rewrite attr_last, constructed_udp_socket.
    destruct (truthy use_udp); [|discriminate].
    intros [= <-]. eauto. }
  split; [exact Hpriv|]. split.
  { intros name Hin. subst w1. rewrite attr_last. by apply constructed_assigned. }
  rewrite after_calls_without_private_fields by assumption.
  split; [reflexivity|].
  by apply call_without_private_fields.
Qed.

(** ** What a call does to the instances *)

Lemma write_points_heap self data batch_size time_precision :
  stable w_heap (write_points self data batch_size time_precision).
Proof.
  unfold write_points, write_batch, write_points_whole, write_points_send.
  solve_stable.
Qed.

Lemma query_heap self q time_precision chunked :
  stable w_heap (query self q time_precision chunked).
Proof. unfold query, loads_content. solve_stable. Qed.

(** No method but [update_database_user_password] assigns an attribute. *)
Lemma call_heap self op :
  (∀ u p, op ≠ UpdateDatabaseUserPassword u p) →
  stable w_heap (call self op).
Proof.
  intros Hop.
  destruct op; try (by destruct (Hop username new_password));
    unfold call, returning_none, returning_value;
    try (apply stable_bind; [|intros ?; apply stable_ret]);
    first [ apply write_points_heap | apply query_heap | idtac ];
    unfold create_database, delete_database, get_database_list, delete_series,
      get_list_cluster_admins, add_cluster_admin, update_cluster_admin_password,
      delete_cluster_admin, set_database_admin, unset_database_admin,
      alter_database_admin, get_database_users, add_database_user,
      delete_database_user, response_json;
    solve_stable.
Qed.

Lemma str_eq_true username v : str_eq username v = true ↔ v = VStr username.
Proof.
  destruct v; cbn; try (split; [discriminate|congruence]).
  rewrite String.eqb_eq. split; congruence.
Qed.

(** [update_database_user_password], case by case. *)
Lemma update_password_run self username new_password w :
  update_database_user_password self username new_password w =
  match attr w self "_database" with
  | None => (Raise (AttributeError "_database"), w)
  | Some database =>
      match request self
              ("db/" +:+ py_str database +:+ "/users/" +:+ username) "POST" None
              (VDict {[ "password" := VStr new_password ]}) 200 w with
      | (Raise e, w1) => (Raise e, w1)
      | (Ok _, w1) =>
          match attr w self "_username" with
          | None => (Raise (AttributeError "_username"), w1)
          | Some own =>
              if str_eq username own
              then setattr self "_password" (VStr new_password) w1
              else (Ok tt, w1)
          end
      end
  end.
Proof.
  unfold update_database_user_password.
  destruct (attr w self "_database") as [database|] eqn:Hdb; cycle 1.
  { by apply bind_getattr_missing. }
  erewrite bind_getattr by exact Hdb.
  unfold bind at 1.
  pose proof (request_heap self
    ("db/" +:+ py_str database +:+ "/users/" +:+ username) "POST" None
    (VDict {[ "password" := VStr new_password ]}) 200 w) as Hheap.
  destruct (request self _ "POST" None _ 200 w) as [[resp|e] w1];
    [|reflexivity].
  cbn [snd] in Hheap.
  rewrite <- (attr_same_heap w w1 self "_username" Hheap).
  destruct (attr w1 self "_username") as [own|] eqn:Hown; cycle 1.
  { by apply bind_getattr_missing. }
  erewrite bind_getattr by exact Hown.
  destruct (str_eq username own); reflexivity.
Qed.

Lemma setattr_run self name v w :
  setattr self name v w =
  match w_heap w !! self with
  | Some o => (Ok tt, set_heap (<[self := <[name := v]> o]> (w_heap w)) w)
  | None => (Raise (AttributeError name), w)
  end.
Proof. reflexivity. Qed.

Lemma attr_after_setattr (h : list obj) self o name v l name' ses pend socks :
  h !! self = Some o →
  attr (World (<[self := <[name := v]> o]> h) ses pend socks) l name' =
  if decide (l = self ∧ name' = name) then Some v
  else attr (World h ses pend socks) l name'.
Proof.
  intros Ho. unfold attr. cbn [w_heap].
  destruct (decide (l = self)) as [->|Hl].
  - rewrite list_lookup_insert_eq by (by eapply lookup_lt_Some).
    rewrite Ho. destruct (decide (name' = name)) as [->|Hn].
    + rewrite decide_True by done. apply lookup_insert_eq.
    + rewrite decide_False by (intros [_ ?]; done). by apply lookup_insert_ne.
  - rewrite list_lookup_insert_ne by done.
    rewrite decide_False by (intros [? _]; done). reflexivity.
Qed.

(** Whatever the call, every attribute of every instance is afterwards
    what it was before, save [_password] of the instance called. *)
Lemma call_attr_frame self op w l name :
  l ≠ self ∨ name ≠ "_password" →
  attr (call self op w).2 l name = attr w l name.
Proof.
  intros Hl.
  assert ((∃ u p, op = UpdateDatabaseUserPassword u p) ∨
          (∀ u p, op ≠ UpdateDatabaseUserPassword u p))
    as [(u & p & ->)|Hop] by (destruct op; eauto).
  2: { by apply attr_same_heap, call_heap. }
  cbn [call]. unfold returning_none, bind. rewrite update_password_run.
  destruct (attr w self "_database") as [database|]; [|reflexivity].
  pose proof (request_heap self
    ("db/" +:+ py_str database +:+ "/users/" +:+ u) "POST" None
    (VDict {[ "password" := VStr p ]}) 200 w) as Hheap.
  destruct (request self _ "POST" None _ 200 w) as [[resp|e] w1];
    cbn [snd] in Hheap; [|by apply attr_same_heap].
  destruct (attr w self "_username") as [own|]; [|by apply attr_same_heap].
  destruct (str_eq u own); [|by apply attr_same_heap].
  rewrite setattr_run.
  destruct (w_heap w1 !! self) as [o|] eqn:Ho; [|by apply attr_same_heap].
  destruct w1 as [h1 s1 p1 k1]. cbn [w_heap] in *. unfold set_heap, ret.
  cbn [snd w_heap w_session w_pending w_sockets].
  rewrite (attr_after_setattr _ _ _ _ _ _ _ _ _ _ Ho).
  rewrite decide_False by (intros [-> ->]; by destruct Hl).
  by apply attr_same_heap.
Qed.

(** ** Instances and what they share *)

Lemma ignores_ret {A} l (a : A) : ignores l (ret a).
Proof. intros o w. reflexivity. Qed.

Lemma ignores_raise {A} l e : ignores l (raise e : M A).
Proof. intros o w. reflexivity. Qed.

Lemma ignores_lift {A} l (r : pyresult A) : ignores l (lift r).
Proof. intros o w. reflexivity. Qed.

Lemma ignores_bind {A B} l (m : M A) (k : A → M B) :
  ignores l m → (∀ a, ignores l (k a)) → ignores l (bind m k).
Proof.
  intros Hm Hk o w. unfold bind. rewrite Hm.
  destruct (m w) as [[a|e] w1]; cbn [fst snd]; [apply Hk|reflexivity].
Qed.

Lemma ignores_for_each {A} l (xs : list A) (body : A → M unit) :
  (∀ a, ignores l (body a)) → ignores l (for_each xs body).
Proof.
  intros Hb. induction xs as [|a xs IH]; cbn [for_each].
  - apply ignores_ret.
  - apply ignores_bind; [apply Hb|intros _; exact IH].
Qed.

Lemma ignores_except {A} l (m h : M A) :
  ignores l m → ignores l h → ignores l (except_TypeError m h).
Proof.
  intros Hm Hh o w. unfold except_TypeError. rewrite Hm.
  destruct (m w) as [[a|e] w1]; cbn [fst snd]; [reflexivity|].
  destruct e; try reflexivity. apply Hh.
Qed.

Lemma ignores_py_assert l b : ignores l (py_assert b).
Proof. destruct b; intros o w; reflexivity. Qed.

Lemma ignores_sendto_method l v : ignores l (sendto_method v).
Proof. destruct v; intros o w; reflexivity. Qed.

Lemma ignores_load_name_n l : ignores l load_name_n.
Proof. intros o w. reflexivity. Qed.

Lemma lookup_with_object l o w self :
  self ≠ l → w_heap (with_object l o w) !! self = w_heap w !! self.
Proof. intros Hne. unfold with_object. cbn. by apply list_lookup_insert_ne. Qed.

Lemma ignores_getattr l self name : self ≠ l → ignores l (getattr self name).
Proof.
  intros Hne o w. rewrite !getattr_attr. unfold attr.
  rewrite lookup_with_object by done. reflexivity.
Qed.

Lemma ignores_setattr l self name v : self ≠ l → ignores l (setattr self name v).
Proof.
  intros Hne o w. rewrite !setattr_run.
  rewrite lookup_with_object by done.
  destruct (w_heap w !! self) as [oa|]; [|reflexivity].
  unfold with_object, set_heap.
  cbn [fst snd w_heap w_session w_pending w_sockets].
  by rewrite list_insert_insert_ne.
Qed.

Lemma ignores_session_request l c : ignores l (session_request c).
Proof.
  intros o w. unfold session_request, with_object, set_heap.
  cbn [w_heap w_session w_pending w_sockets].
  destruct (w_pending w); reflexivity.
Qed.

Lemma ignores_sendto l fd payload host port :
  ignores l (sendto fd payload host port).
Proof.
  intros o w. unfold sendto, with_object, set_heap, set_sockets.
  cbn [w_heap w_session w_pending w_sockets].
  destruct (w_sockets w !! fd); reflexivity.
Qed.

Create HintDb ignores.
#[local] Hint Resolve ignores_ret ignores_raise ignores_lift ignores_py_assert
  ignores_sendto_method ignores_load_name_n ignores_getattr ignores_setattr
  ignores_session_request ignores_sendto : ignores.

(** Splits a goal [ignores l m] along the structure of [m]. *)
Ltac ignores_step :=
  lazy zeta;
  lazymatch goal with
  | |- ignores _ (bind _ _) => apply ignores_bind; [|intros ?]
  | |- ignores _ (for_each _ _) => apply ignores_for_each; intros ?
  | |- ignores _ (except_TypeError _ _) => apply ignores_except
  | |- ignores _ (if ?b then _ else _) => destruct b
  | |- ignores _ (match ?x with _ => _ end) => destruct x
  | |- ignores _ _ => solve [eauto with ignores]
  end.
Ltac solve_ignores := repeat ignores_step.

(** A call on one instance neither reads nor writes another. *)
Lemma call_ignores_others self l op : self ≠ l → ignores l (call self op).
Proof.
  intros Hne.
  destruct op;
    unfold call, returning_none, returning_value,
      write_points, write_batch, write_points_whole,
      write_points_send, query, loads_content,
      create_database, delete_database, get_database_list, delete_series,
      get_list_cluster_admins, add_cluster_admin, update_cluster_admin_password,
      delete_cluster_admin, set_database_admin, unset_database_admin,
      alter_database_admin, get_database_users, add_database_user,
      update_database_user_password, delete_database_user, response_json,
      request, send_packet;
    solve_ignores.
Qed.

(** Two requests that each reach the session reach the same one: issued
    one after the other, from whichever instances, their calls end up in
    the one log, in order. *)
Lemma requests_share_the_session
    a url method params data status_code
    b url' method' params' data' status_code' w :
  w_session (request a url method params data status_code w).2 ≠ w_session w →
  w_session (request b url' method' params' data' status_code' w).2 ≠ w_session w →
  ∃ ca cb,
    w_session (request a url method params data status_code w).2 =
      w_session w ++ [ca] ∧
    w_session (request b url' method' params' data' status_code' w).2 =
      w_session w ++ [cb] ∧
    w_session (request b url' method' params' data' status_code'
                 (request a url method params data status_code w).2).2 =
      w_session w ++ [ca; cb].
Proof.
  intros Ha Hb.
  destruct (request_cases a url method params data status_code w)
    as [[e He]|(ba & ua & pa & bodya & ha & va & ta
                & _ & _ & _ & _ & _ & _ & _ & Hruna)].
  { rewrite He in Ha. by destruct Ha. }
  destruct (request_cases b url' method' params' data' status_code' w)
    as [[e He]|(bb & ub & pb & bodyb & hb & vb & tb
                & Hbb & Hub & Hpb & Hbodyb & Hhb & Hvb & Htb & Hrunb)].
  { rewrite He in Hb. by destruct Hb. }
  eexists _, _. rewrite Hrunb, Hruna, !exchange_session.
  split; [reflexivity|]. split; [reflexivity|].
  set (w1 := (exchange
                (HttpCall method (py_str ba +:+ "/" +:+ url)
                   (sent_params params ua pa) bodya ha va ta) status_code w).2).
  assert (Hsession : w_session w1 = w_session w ++
            [HttpCall method (py_str ba +:+ "/" +:+ url)
               (sent_params params ua pa) bodya ha va ta])
    by apply exchange_session.
  assert (Hheap : w_heap w1 = w_heap w).
  { subst w1. rewrite exchange_run. destruct (w_pending w); reflexivity. }
  pose proof (λ name, attr_same_heap w w1 b name Hheap) as Hattr.
  rewrite (request_run b url' method' params' data' status_code' w1
             bb ub pb bodyb hb vb tb)
    by (first [exact Hbodyb | by rewrite Hattr]).
  rewrite exchange_session, Hsession, <- app_assoc. reflexivity.
Qed.

(** C8, as the code has it. Instances keep their attributes to themselves:
    a call on one instance neither reads nor writes another instance, whose
    attributes are all unchanged afterwards; and the constructor gives a
    UDP instance a socket of its own, one that no instance could hold
    before. The HTTP session is the exception: it is a single module-level
    object, and any two HTTP calls that get through, from whichever
    instances, go through it and are recorded in it one after the other. *)
Theorem C8_instances_share_the_session_and_nothing_else a b w :
  a ≠ b →
  (∀ op, ignores b (call a op)) ∧
  (∀ op name, attr (call a op w).2 b name = attr w b name) ∧
  (∀ host port username password database ssl verify_ssl timeout use_udp
     udp_port,
     truthy use_udp = true →
     let r := __init__ host port username password database ssl verify_ssl
                timeout use_udp udp_port w in
     ∃ self fd,
       r.1 = Ok self ∧
       attr r.2 self "udp_socket" = Some (VSock fd) ∧
       w_sockets w !! fd = None ∧
       w_sockets r.2 !! fd = Some []) ∧
  (∀ url method params data status_code url' method' params' data' status_code',
     w_session (request a url method params data status_code w).2 ≠ w_session w →
     w_session (request b url' method' params' data' status_code' w).2
       ≠ w_session w →
     ∃ ca cb,
       w_session (request a url method params data status_code w).2 =
         w_session w ++ [ca] ∧
       w_session (request b url' method' params' data' status_code' w).2 =
         w_session w ++ [cb] ∧
       w_session (request b url' method' params' data' status_code'
                    (request a url method params data status_code w).2).2 =
         w_session w ++ [ca; cb]).
Proof.
  intros Hne. split; [|split; [|split]].
  - intros op. by apply call_ignores_others.
  - intros op name. apply call_attr_frame. left. congruence.
  - intros host port username password database ssl verify_ssl timeout
      use_udp udp_port Hudp r. subst r. rewrite init_run. cbn [fst snd].
    exists (length (w_heap w)), (length (w_sockets w)).
    split; [reflexivity|].
    rewrite attr_last, constructed_udp_socket, Hudp. cbn [w_sockets].
    split; [reflexivity|]. split.
    + by apply lookup_ge_None_2.
    + by apply list_lookup_middle.
  - intros. by apply requests_share_the_session.
Qed.

(** ** The precision guard, exactly *)

Lemma prefix_of_empty x : String.prefix x "" = true → x = "".
Proof. destruct x; [reflexivity|discriminate]. Qed.

Lemma prefix_of_cons x b s :
  String.prefix x (String b s) = true →
  x = "" ∨ ∃ x', x = String b x' ∧ String.prefix x' s = true.
Proof.
  destruct x as [|a x]; [by left|]. cbn.
  destruct (Ascii.ascii_dec a b) as [->|]; [|discriminate].
  intros Hp. right. eauto.
Qed.

Lemma str_in_smu x : str_in x "smu" = true ↔ x ∈ substrings_of_smu.
Proof.
  split.
  - unfold substrings_of_smu. cbn [str_in].
    rewrite !orb_true_iff.
    intros [Hp|[Hp|[Hp|[Hp|Hp]]]]; [| | | |discriminate].
    + apply prefix_of_cons in Hp as [->|(x1 & -> & Hp)]; [set_solver|].
      apply prefix_of_cons in Hp as [->|(x2 & -> & Hp)]; [set_solver|].
      apply prefix_of_cons in Hp as [->|(x3 & -> & Hp)]; [set_solver|].
      apply prefix_of_empty in Hp as ->. set_solver.
    + apply prefix_of_cons in Hp as [->|(x1 & -> & Hp)]; [set_solver|].
      apply prefix_of_cons in Hp as [->|(x2 & -> & Hp)]; [set_solver|].
      apply prefix_of_empty in Hp as ->. set_solver.
    + apply prefix_of_cons in Hp as [->|(x1 & -> & Hp)]; [set_solver|].
      apply prefix_of_empty in Hp as ->. set_solver.
    + apply prefix_of_empty in Hp as ->. set_solver.
  - unfold substrings_of_smu. intros Hin.
    repeat (apply elem_of_cons in Hin as [->|Hin]; [reflexivity|]).
    by apply elem_of_nil in Hin.
Qed.

(** X1. The precision assertion of [write_points] and [query] lets
    exactly seven strings through: the empty string, ["s"], ["m"], ["u"],
    ["sm"], ["mu"] and ["smu"]. With any other precision both methods
    raise [AssertionError] before they look at the instance or the
    network. *)
Theorem X1_precisions_that_pass_the_assertion self data batch_size q chunked w :
  ∀ time_precision,
    (str_in time_precision "smu" = true ↔ time_precision ∈ substrings_of_smu) ∧
    (time_precision ∉ substrings_of_smu ↔
     write_points self data batch_size time_precision w =
       (Raise AssertionError, w) ∧
     query self q time_precision chunked w = (Raise AssertionError, w) ∧
     str_in time_precision "smu" = false).
Proof.
  intros tp. split; [apply str_in_smu|].
  rewrite <- str_in_smu. split.
  - intros Hout. apply not_true_is_false in Hout.
    unfold write_points, query. rewrite Hout. by repeat split.
  - intros (_ & _ & Hout). by rewrite Hout.
Qed.

(** ** More on the constructor *)

(** X2. The constructor takes the scheme to be [https] only when [ssl] is
    the object [True] itself; any other value, true ones such as [1] or
    ["yes"] included, gives [http]. The base URL kept in [_baseurl] is
    [scheme://host:port] with host and port rendered by [str], and
    [_headers] is the fixed JSON header pair. *)
Theorem X2_https_only_for_ssl_True
    host port username password database ssl verify_ssl timeout use_udp
    udp_port w :
  let r := __init__ host port username password database ssl verify_ssl
             timeout use_udp udp_port w in
  let self := length (w_heap w) in
  let scheme := if is_True ssl then "https" else "http" in
  r.1 = Ok self ∧
  attr r.2 self "scheme" = Some (VStr scheme) ∧
  attr r.2 self "_baseurl" =
    Some (VStr (py_str (VStr scheme) +:+ "://" +:+ py_str host +:+ ":"
                  +:+ py_str port)) ∧
  attr r.2 self "_headers" = Some default_headers ∧
  (truthy ssl = true → is_True ssl = false →
   attr r.2 self "scheme" = Some (VStr "http")).
Proof.
  intros r self scheme. subst r self scheme. rewrite init_run. cbn [fst snd].
  rewrite !attr_last. split; [reflexivity|].
  unfold constructed_object.
  repeat split; try intros _ Hne;
    destruct (truthy use_udp); destruct ssl as [|[]| | | | |];
    try discriminate; by simplify_map_eq.
Qed.

(** X3. The constructor always succeeds and builds the new instance at a
    fresh address without touching what is there: the session and the
    pending responses are as before (no network I/O), every existing
    instance keeps every attribute, every existing socket keeps what was
    sent on it, and exactly one socket is opened when [use_udp] is true,
    none otherwise. The arguments are stored as given under their own
    names. *)
Theorem X3_constructor_is_local
    host port username password database ssl verify_ssl timeout use_udp
    udp_port w :
  let r := __init__ host port username password database ssl verify_ssl
             timeout use_udp udp_port w in
  let self := length (w_heap w) in
  r.1 = Ok self ∧
  w_session r.2 = w_session w ∧
  w_pending r.2 = w_pending w ∧
  length (w_heap r.2) = S (length (w_heap w)) ∧
  (∀ l name, l ≠ self → attr r.2 l name = attr w l name) ∧
  w_sockets r.2 = w_sockets w ++ (if truthy use_udp then [[]] else []) ∧
  attr r.2 self "host" = Some host ∧
  attr r.2 self "port" = Some port ∧
  attr r.2 self "username" = Some username ∧
  attr r.2 self "password" = Some password ∧
  attr r.2 self "database" = Some database ∧
  attr r.2 self "timeout" = Some timeout ∧
  attr r.2 self "verify_ssl" = Some verify_ssl ∧
  attr r.2 self "use_udp" = Some use_udp ∧
  attr r.2 self "udp_port" = Some udp_port.
Proof.
  intros r self. subst r self. rewrite init_run.
  cbn [fst snd w_session w_pending w_heap w_sockets].
  rewrite !attr_last.
  split; [reflexivity|]. split; [reflexivity|]. split; [reflexivity|].
  split; [rewrite length_app; cbn; lia|].
  split.
  { intros l name Hl. unfold attr. cbn [w_heap].
    destruct (decide (l < length (w_heap w))%nat) as [Hlt|Hge].
    - by rewrite lookup_app_l.
    - rewrite !lookup_ge_None_2; [reflexivity|lia|rewrite length_app; cbn; lia]. }
  split.
  { destruct (truthy use_udp); [reflexivity|by rewrite app_nil_r]. }
  unfold constructed_object.
  repeat split;
    destruct (truthy use_udp); destruct ssl as [|[]| | | | |]; by simplify_map_eq.
Qed.

(** ** The request executor, as a whole *)

(** X4. A run of [request] is all or nothing. Either it raises before the
    session is used and the world is exactly as it was, or it makes exactly
    one call on the session, with the method given, the path appended to
    [_baseurl] after a slash, the merged parameters, and [_headers],
    [_verify_ssl] and [_timeout] passed on as they are; then it consumes
    the next pending response, if any, and touches neither instances nor
    sockets. The body is absent for [None], a string is sent verbatim,
    anything else is what [json.dumps] made of it. With no response the
    transport error comes out as it is; a response is handed back only
    when its status is the expected one. *)
Theorem X4_request_is_all_or_one_exchange
    self url method params data status_code w :
  let r := request self url method params data status_code w in
  (∃ e, r = (Raise e, w)) ∨
  (∃ baseurl u p headers verify timeout body,
     attr w self "_baseurl" = Some baseurl ∧
     attr w self "_username" = Some u ∧
     attr w self "_password" = Some p ∧
     attr w self "_headers" = Some headers ∧
     attr w self "_verify_ssl" = Some verify ∧
     attr w self "_timeout" = Some timeout ∧
     request_body data = Ok body ∧
     (data = VNone → body = None) ∧
     (∀ s, data = VStr s → body = Some s) ∧
     w_session r.2 =
       w_session w ++
         [HttpCall method (py_str baseurl +:+ "/" +:+ url)
            (sent_params params u p) body headers verify timeout] ∧
     w_heap r.2 = w_heap w ∧
     w_sockets r.2 = w_sockets w ∧
     w_pending r.2 = tail (w_pending w) ∧
     r.1 = match w_pending w with
           | [] => Raise ConnectionError
           | resp :: _ =>
               if bool_decide (resp_status_code resp ≠ status_code)
               then Raise (InfluxDBClientError (resp_content resp)
                             (resp_status_code resp))
               else Ok resp
           end ∧
     (∀ resp, r.1 = Ok resp → resp_status_code resp = status_code)).
Proof.
  intros r. subst r.
  destruct (request_cases self url method params data status_code w)
    as [He|(b & u & p & body & h & v & t
            & Hb & Hu & Hp & Hbody & Hh & Hv & Ht & Hrun)];
    [by left|right].
  exists b, u, p, h, v, t, body. rewrite Hrun, exchange_run.
  repeat (split; [assumption|]).
  split. { intros ->. cbn in Hbody. congruence. }
  split. { intros s ->. cbn in Hbody. congruence. }
  destruct (w_pending w) as [|resp rest];
    cbn [fst snd w_session w_heap w_sockets w_pending tail];
    repeat (split; [reflexivity|]).
  - discriminate.
  - intros resp'.
    destruct (bool_decide (resp_status_code resp ≠ status_code)) eqn:Hcode;
      [discriminate|].
    intros [= <-]. apply bool_decide_eq_false_1 in Hcode.
    destruct (decide (resp_status_code resp = status_code)); [done|by destruct Hcode].
Qed.

(** X6. [send_packet] is all or nothing too, and it is confined to the
    instance's socket: it never touches instances, session or pending
    responses; a run that raises has sent nothing and left the world as it
    was, a failure of [json.dumps] coming out before any attribute is
    read; a run that returns has appended exactly one datagram to the
    socket in [udp_socket]. *)
Theorem X6_send_packet_is_all_or_one_datagram self packet w :
  let r := send_packet self packet w in
  w_heap r.2 = w_heap w ∧
  w_session r.2 = w_session w ∧
  w_pending r.2 = w_pending w ∧
  (∀ e, json_dumps packet = Raise e → r = (Raise e, w)) ∧
  (∀ e, r.1 = Raise e → r.2 = w) ∧
  (r.1 = Ok tt →
   ∃ payload fd host port sent,
     json_dumps packet = Ok payload ∧
     attr w self "udp_socket" = Some (VSock fd) ∧
     attr w self "_host" = Some host ∧
     attr w self "udp_port" = Some port ∧
     w_sockets w !! fd = Some sent ∧
     w_sockets r.2 =
       <[fd := sent ++ [Datagram (encode_utf8 payload) host port]]> (w_sockets w)).
Proof.
  intros r. subst r.
  split; [apply send_packet_heap|].
  split; [apply send_packet_session|].
  split; [apply send_packet_pending|].
  split.
  { intros e He. unfold send_packet. by apply bind_lift_raise. }
  destruct (send_packet self packet w) as [[[]|e] w'] eqn:Hrun; cbn [fst snd].
  - split; [discriminate|]. intros _.
    apply send_packet_ok_inv in Hrun.
    destruct Hrun as (payload & fd & host & port & sent & ? & ? & ? & ? & ? & ->).
    by exists payload, fd, host, port, sent.
  - split; [|discriminate]. intros e' _.
    by eapply send_packet_raise_world.
Qed.

(** ** No method sends twice *)

Lemma setattr_transport_calls self name v :
  stable transport_calls (setattr self name v).
Proof. intros w. unfold setattr. destruct (w_heap w !! self); reflexivity. Qed.

#[local] Hint Resolve setattr_transport_calls : stable.

Lemma at_most_one_stable {A} (m : M A) :
  stable transport_calls m → at_most_one_send m.
Proof. intros Hm w. rewrite Hm. lia. Qed.

Lemma at_most_one_bind_l {A B} (m : M A) (k : A → M B) :
  stable transport_calls m → (∀ a, at_most_one_send (k a)) →
  at_most_one_send (bind m k).
Proof.
  intros Hm Hk w. unfold bind. specialize (Hm w).
  destruct (m w) as [[a|e] w1]; cbn [snd] in *; [|lia].
  rewrite <- Hm. apply Hk.
Qed.

Lemma at_most_one_bind_r {A B} (m : M A) (k : A → M B) :
  at_most_one_send m → (∀ a, stable transport_calls (k a)) →
  at_most_one_send (bind m k).
Proof.
  intros Hm Hk w. unfold bind. specialize (Hm w).
  destruct (m w) as [[a|e] w1]; cbn [snd] in *; [|exact Hm].
  by rewrite Hk.
Qed.

Lemma request_at_most_one self url method params data status_code :
  at_most_one_send (request self url method params data status_code).
Proof.
  intros w.
  destruct (request_cases self url method params data status_code w)
    as [[e ->]|(b & u & p & body & h & v & t & _ & _ & _ & _ & _ & _ & _ & ->)].
  { cbn. lia. }
  rewrite exchange_run. unfold transport_calls.
  destruct (w_pending w); cbn [snd w_session w_sockets];
    rewrite length_app; cbn [length]; lia.
Qed.

Lemma send_packet_at_most_one self packet :
  at_most_one_send (send_packet self packet).
Proof.
  intros w.
  destruct (send_packet self packet w) as [[[]|e] w'] eqn:Hsend.
  - apply send_packet_ok_inv in Hsend.
    destruct Hsend as (payload & fd & host & port & sent & _ & _ & _ & _ & Hfd & ->).
    unfold transport_calls, set_sockets. cbn [snd w_session w_sockets].
    rewrite (datagrams_after_send _ _ _ _ Hfd). lia.
  - apply send_packet_raise_world in Hsend as ->. cbn. lia.
Qed.

Lemma write_points_at_most_one self data batch_size time_precision :
  at_most_one_send (write_points self data batch_size time_precision).
Proof.
  intros w. destruct (batching batch_size) eqn:Hb.
  - rewrite write_points_batching_world by exact Hb. lia.
  - rewrite write_points_unbatched by exact Hb.
    apply write_points_whole_transport_calls.
Qed.

(** Splits a goal [at_most_one_send m]: what comes before the request is
    silent, and so is what comes after it. *)
Ltac one_send_step :=
  lazy zeta;
  lazymatch goal with
  | |- at_most_one_send (request _ _ _ _ _ _) => apply request_at_most_one
  | |- at_most_one_send (bind (request _ _ _ _ _ _) _) =>
      apply at_most_one_bind_r;
      [apply request_at_most_one|intros ?; solve [solve_stable]]
  | |- at_most_one_send (bind _ _) =>
      apply at_most_one_bind_l; [solve [solve_stable]|intros ?]
  end.

(** X11. No method of the client retries or fans out: whatever the
    arguments and the state, a call uses the transports (an HTTP call on
    the session or a datagram on a socket) at most once. And only
    [write_points] and [send_packet] ever touch a socket. *)
Theorem X11_every_call_sends_at_most_once self op w :
  (transport_calls (call self op w).2 ≤ transport_calls w + 1)%nat ∧
  (writes_points op = false → w_sockets (call self op w).2 = w_sockets w).
Proof.
  split.
  - revert w. change (at_most_one_send (call self op)).
    destruct op; unfold call, returning_none, returning_value.
    + repeat one_send_step.
    + apply at_most_one_bind_r; [apply send_packet_at_most_one|].
      intros ?. solve_stable.
    + apply at_most_one_bind_r; [apply write_points_at_most_one|].
      intros ?. solve_stable.
    + unfold query, loads_content.
      apply at_most_one_bind_r; [|intros ?; solve_stable].
      repeat one_send_step.
    + unfold create_database.
      apply at_most_one_bind_r; [|intros ?; solve_stable]. repeat one_send_step.
    + unfold delete_database.
      apply at_most_one_bind_r; [|intros ?; solve_stable]. repeat one_send_step.
    + unfold get_database_list.
      apply at_most_one_bind_r; [|intros ?; solve_stable]. repeat one_send_step.
    + unfold delete_series.
      apply at_most_one_bind_r; [|intros ?; solve_stable]. repeat one_send_step.
    + unfold get_list_cluster_admins, response_json.
      apply at_most_one_bind_r; [|intros ?; solve_stable]. repeat one_send_step.
    + unfold add_cluster_admin.
      apply at_most_one_bind_r; [|intros ?; solve_stable]. repeat one_send_step.
    + unfold update_cluster_admin_password.
      apply at_most_one_bind_r; [|intros ?; solve_stable]. repeat one_send_step.
    + unfold delete_cluster_admin.
      apply at_most_one_bind_r; [|intros ?; solve_stable]. repeat one_send_step.
    + unfold set_database_admin, alter_database_admin.
      apply at_most_one_bind_r; [|intros ?; solve_stable]. repeat one_send_step.
    + unfold unset_database_admin, alter_database_admin.
      apply at_most_one_bind_r; [|intros ?; solve_stable]. repeat one_send_step.
    + unfold alter_database_admin.
      apply at_most_one_bind_r; [|intros ?; solve_stable]. repeat one_send_step.
    + unfold get_database_users, response_json.
      apply at_most_one_bind_r; [|intros ?; solve_stable]. repeat one_send_step.
    + unfold add_database_user.
      apply at_most_one_bind_r; [|intros ?; solve_stable]. repeat one_send_step.
    + unfold update_database_user_password.
      apply at_most_one_bind_r; [|intros ?; solve_stable]. repeat one_send_step.
    + unfold delete_database_user.
      apply at_most_one_bind_r; [|intros ?; solve_stable]. repeat one_send_step.
  - intros Hop. revert w. change (stable w_sockets (call self op)).
    destruct op; try discriminate;
      unfold call, returning_none, returning_value,
        query, loads_content,
        create_database, delete_database, get_database_list, delete_series,
        get_list_cluster_admins, add_cluster_admin,
        update_cluster_admin_password, delete_cluster_admin,
        set_database_admin, unset_database_admin, alter_database_admin,
        get_database_users, add_database_user, update_database_user_password,
        delete_database_user, response_json;
      solve_stable.
Qed.

(** ** The administrative methods *)

(** A request whose response is dropped, with the fields in place and a
    response pending. *)
Lemma request_unit_run self url method data status_code w
    baseurl u p body headers verify timeout resp rest :
  attr w self "_baseurl" = Some baseurl →
  attr w self "_username" = Some u →
  attr w self "_password" = Some p →
  request_body data = Ok body →
  attr w self "_headers" = Some headers →
  attr w self "_verify_ssl" = Some verify →
  attr w self "_timeout" = Some timeout →
  w_pending w = resp :: rest →
  returning_none (request self url method None data status_code >> ret tt) w =
  (if bool_decide (resp_status_code resp ≠ status_code)
   then Raise (InfluxDBClientError (resp_content resp) (resp_status_code resp))
   else Ok RNone,
   World (w_heap w)
     (w_session w ++
        [HttpCall method (py_str baseurl +:+ "/" +:+ url) (sent_params None u p)
           body headers verify timeout])
     rest (w_sockets w)).
Proof.
  intros Hb Hu Hp Hbody Hh Hv Ht Hpend.
  unfold returning_none, bind.
  erewrite request_run by eassumption.
  rewrite exchange_run, Hpend.
  destruct (bool_decide (resp_status_code resp ≠ status_code)); reflexivity.
Qed.

(** Any run of [request] either stops before the session is used, the
    world unchanged, or is one exchange whose outcome the pending
    responses decide. *)
Lemma request_total_cases self url method params data status_code w :
  (∃ e, request self url method params data status_code w = (Raise e, w)) ∨
  (∃ baseurl u p body headers verify timeout,
     attr w self "_baseurl" = Some baseurl ∧
     attr w self "_username" = Some u ∧
     attr w self "_password" = Some p ∧
     request_body data = Ok body ∧
     attr w self "_headers" = Some headers ∧
     attr w self "_verify_ssl" = Some verify ∧
     attr w self "_timeout" = Some timeout ∧
     request self url method params data status_code w =
     (request_outcome (w_pending w) status_code,
      after_exchange
        (HttpCall method (py_str baseurl +:+ "/" +:+ url)
           (sent_params params u p) body headers verify timeout) w)).
Proof.
  destruct (request_cases self url method params data status_code w)
    as [He|(b & u & p & body & h & v & t
            & Hb & Hu & Hp & Hbody & Hh & Hv & Ht & Hrun)];
    [by left|right].
  exists b, u, p, body, h, v, t. repeat (split; [assumption|]).
  rewrite Hrun, exchange_run. unfold request_outcome, after_exchange.
  destruct (w_pending w) as [|resp rest]; [reflexivity|].
  destruct (bool_decide (resp_status_code resp ≠ status_code)); reflexivity.
Qed.

(** The same for a request whose response goes through a pure decoder. *)
Lemma request_bind_cases {A} self url method params data status_code
    (k : response → pyresult A) w :
  (∃ e, bind (request self url method params data status_code)
          (λ r, lift (k r)) w = (Raise e, w)) ∨
  (∃ baseurl u p body headers verify timeout,
     attr w self "_baseurl" = Some baseurl ∧
     attr w self "_username" = Some u ∧
     attr w self "_password" = Some p ∧
     request_body data = Ok body ∧
     attr w self "_headers" = Some headers ∧
     attr w self "_verify_ssl" = Some verify ∧
     attr w self "_timeout" = Some timeout ∧
     bind (request self url method params data status_code)
       (λ r, lift (k r)) w =
     (match request_outcome (w_pending w) status_code with
      | Ok resp => k resp
      | Raise e => Raise e
      end,
      after_exchange
        (HttpCall method (py_str baseurl +:+ "/" +:+ url)
           (sent_params params u p) body headers verify timeout) w)).
Proof.
  destruct (request_total_cases self url method params data status_code w)
    as [[e He]|(b & u & p & body & h & v & t
                & Hb & Hu & Hp & Hbody & Hh & Hv & Ht & Hrun)].
  { left. exists e. by apply bind_fail. }
  right. exists b, u, p, body, h, v, t. repeat (split; [assumption|]).
  unfold bind. rewrite Hrun.
  destruct (request_outcome (w_pending w) status_code); reflexivity.
Qed.

(** The same for a request whose response is dropped. *)
Lemma request_unit_cases self url method data status_code w :
  (∃ e, returning_none (request self url method None data status_code >> ret tt) w
        = (Raise e, w)) ∨
  (∃ baseurl u p body headers verify timeout,
     attr w self "_baseurl" = Some baseurl ∧
     attr w self "_username" = Some u ∧
     attr w self "_password" = Some p ∧
     request_body data = Ok body ∧
     attr w self "_headers" = Some headers ∧
     attr w self "_verify_ssl" = Some verify ∧
     attr w self "_timeout" = Some timeout ∧
     returning_none (request self url method None data status_code >> ret tt) w =
     (match request_outcome (w_pending w) status_code with
      | Ok _ => Ok RNone
      | Raise e => Raise e
      end,
      after_exchange
        (HttpCall method (py_str baseurl +:+ "/" +:+ url)
           (sent_params None u p) body headers verify timeout) w)).
Proof.
  destruct (request_total_cases self url method None data status_code w)
    as [[e He]|(b & u & p & body & h & v & t
                & Hb & Hu & Hp & Hbody & Hh & Hv & Ht & Hrun)].
  { left. exists e. unfold returning_none. by apply bind_fail, bind_fail. }
  right. exists b, u, p, body, h, v, t. repeat (split; [assumption|]).
  unfold returning_none, bind. rewrite Hrun.
  destruct (request_outcome (w_pending w) status_code); reflexivity.
Qed.

(** X7. Whatever the instance and the state, a call of an administrative
    method that returns nothing goes one of two ways. Either it raises
    before the session is used and the world is as it was: that is the
    case whenever one of the fields it reads is missing, as on every
    instance that comes straight out of the constructor. Or it makes
    exactly one HTTP request, the one of its row in the table, with no
    query parameter besides [u] and [p], and then succeeds exactly on its
    own status code: 201 for [create_database], 204 for
    [delete_database], [delete_series] and [delete_cluster_admin], 200 for
    the others, [delete_database_user] included; any other status, also
    another success code, raises [InfluxDBClientError] with the body and
    that status, and a transport failure comes out as it is. *)
Theorem X7_admin_methods_accept_only_their_status self op w :
  administrative op = true →
  (∃ e, call self op w = (Raise e, w)) ∨
  (∃ method url data expected baseurl u p body headers verify timeout,
     admin_request op (attr w self "_database") =
       Some (method, url, data, expected) ∧
     attr w self "_baseurl" = Some baseurl ∧
     attr w self "_username" = Some u ∧
     attr w self "_password" = Some p ∧
     request_body data = Ok body ∧
     attr w self "_headers" = Some headers ∧
     attr w self "_verify_ssl" = Some verify ∧
     attr w self "_timeout" = Some timeout ∧
     call self op w =
     (match request_outcome (w_pending w) expected with
      | Ok _ => Ok RNone
      | Raise e => Raise e
      end,
      after_exchange
        (HttpCall method (py_str baseurl +:+ "/" +:+ url)
           (sent_params None u p) body headers verify timeout) w)).
Proof.
  intros Hadm.
  assert (Hgo : ∀ method url data expected,
    admin_request op (attr w self "_database") =
      Some (method, url, data, expected) →
    call self op w =
      returning_none (request self url method None data expected >> ret tt) w →
    (∃ e, call self op w = (Raise e, w)) ∨
    (∃ method url data expected baseurl u p body headers verify timeout,
       admin_request op (attr w self "_database") =
         Some (method, url, data, expected) ∧
       attr w self "_baseurl" = Some baseurl ∧
       attr w self "_username" = Some u ∧
       attr w self "_password" = Some p ∧
       request_body data = Ok body ∧
       attr w self "_headers" = Some headers ∧
       attr w self "_verify_ssl" = Some verify ∧
       attr w self "_timeout" = Some timeout ∧
       call self op w =
       (match request_outcome (w_pending w) expected with
        | Ok _ => Ok RNone
        | Raise e => Raise e
        end,
        after_exchange
          (HttpCall method (py_str baseurl +:+ "/" +:+ url)
             (sent_params None u p) body headers verify timeout) w))).
  { intros method url data expected Hrow Hcall. rewrite Hcall.
    destruct (request_unit_cases self url method data expected w)
      as [He|(b & u & p & body & h & v & t & Hrest)]; [by left|right].
    by exists method, url, data, expected, b, u, p, body, h, v, t. }
  assert (Hmissing : ∀ (k : pyval → M unit),
    attr w self "_database" = None →
    returning_none (database <- getattr self "_database"; k database) w
    = (Raise (AttributeError "_database"), w)).
  { intros k Hd. unfold returning_none.
    by apply bind_fail, bind_getattr_missing. }
  destruct op; try discriminate; cbn [admin_request] in Hgo.
  - eapply Hgo; reflexivity.
  - eapply Hgo; reflexivity.
  - destruct (attr w self "_database") as [d|] eqn:Hd.
    + eapply Hgo; [reflexivity|].
      unfold call, returning_none, delete_series.
      unfold bind at 1. unfold bind at 1. rewrite getattr_attr, Hd. reflexivity.
    + left. eexists. unfold call, delete_series. by apply Hmissing.
  - eapply Hgo; reflexivity.
  - eapply Hgo; reflexivity.
  - eapply Hgo; reflexivity.
  - destruct (attr w self "_database") as [d|] eqn:Hd.
    + eapply Hgo; [reflexivity|].
      unfold call, returning_none, set_database_admin, alter_database_admin.
      unfold bind at 1. unfold bind at 1. rewrite getattr_attr, Hd. reflexivity.
    + left. eexists.
      unfold call, set_database_admin, alter_database_admin. by apply Hmissing.
  - destruct (attr w self "_database") as [d|] eqn:Hd.
    + eapply Hgo; [reflexivity|].
      unfold call, returning_none, unset_database_admin, alter_database_admin.
      unfold bind at 1. unfold bind at 1. rewrite getattr_attr, Hd. reflexivity.
    + left. eexists.
      unfold call, unset_database_admin, alter_database_admin. by apply Hmissing.
  - destruct (attr w self "_database") as [d|] eqn:Hd.
    + eapply Hgo; [reflexivity|].
      unfold call, returning_none, alter_database_admin.
      unfold bind at 1. unfold bind at 1. rewrite getattr_attr, Hd. reflexivity.
    + left. eexists. unfold call, alter_database_admin. by apply Hmissing.
  - destruct (attr w self "_database") as [d|] eqn:Hd.
    + eapply Hgo; [reflexivity|].
      unfold call, returning_none, add_database_user.
      unfold bind at 1. unfold bind at 1. rewrite getattr_attr, Hd. reflexivity.
    + left. eexists. unfold call, add_database_user. by apply Hmissing.
  - destruct (attr w self "_database") as [d|] eqn:Hd.
    + eapply Hgo; [reflexivity|].
      unfold call, returning_none, delete_database_user.
      unfold bind at 1. unfold bind at 1. rewrite getattr_attr, Hd. reflexivity.
    + left. eexists. unfold call, delete_database_user. by apply Hmissing.
Qed.

(** X8. Names go into the path as they are, slashes included, so a
    database name can reach into another resource: on an instance whose
    database is [d], [delete_database] called with [d/series/s] is the
    very same computation as [delete_series] called with [s]: same
    request, same expected status, same outcome in every world. *)
Theorem X8_database_name_is_spliced_into_the_path self d series w :
  attr w self "_database" = Some d →
  delete_database self (py_str d +:+ "/series/" +:+ series) w =
  delete_series self series w.
Proof.
  intros Hdb. unfold delete_database, delete_series.
  erewrite (bind_getattr self "_database") by exact Hdb.
  reflexivity.
Qed.

(** X9. [update_database_user_password] rotates the stored password only
    after the server has accepted the change: if [_password] is different
    after the call, then the call returned, the username given is the
    instance's own [_username], the response consumed had status 200, and
    the stored password is the new one. A rejected change, a failed
    request and a change for another user leave it as it was. *)
Theorem X9_password_rotated_only_after_acceptance
    self username new_password w :
  let r := update_database_user_password self username new_password w in
  attr r.2 self "_password" ≠ attr w self "_password" →
  r.1 = Ok tt ∧
  attr w self "_username" = Some (VStr username) ∧
  attr r.2 self "_password" = Some (VStr new_password) ∧
  ∃ resp, head (w_pending w) = Some resp ∧
          resp_status_code resp = 200 ∧
          w_pending r.2 = tail (w_pending w).
Proof.
  intros r Hchanged. subst r.
  rewrite update_password_run in Hchanged |- *.
  destruct (attr w self "_database") as [database|]; [|by destruct Hchanged].
  destruct (request self ("db/" +:+ py_str database +:+ "/users/" +:+ username)
              "POST" None (VDict {[ "password" := VStr new_password ]}) 200 w)
    as [[resp|e] w1] eqn:Hreq.
  2: { pose proof (request_heap self
         ("db/" +:+ py_str database +:+ "/users/" +:+ username) "POST" None
         (VDict {[ "password" := VStr new_password ]}) 200 w) as Hheap.
       rewrite Hreq in Hheap. cbn [snd] in *.
       destruct Hchanged. by apply attr_same_heap. }
  apply request_ok_inv in Hreq.
  destruct Hreq as (b & u & p & body & h & v & t & rest
                    & _ & _ & _ & _ & _ & _ & _ & Hpend & Hcode & ->).
  destruct (attr w self "_username") as [own|]; [|by destruct Hchanged].
  destruct (str_eq username own) eqn:Heq; [|by destruct Hchanged].
  apply str_eq_true in Heq as ->.
  rewrite setattr_run in Hchanged |- *. cbn [w_heap] in *.
  destruct (w_heap w !! self) as [o|] eqn:Ho; [|by destruct Hchanged].
  unfold set_heap. cbn [fst snd w_heap w_session w_pending w_sockets].
  rewrite (attr_after_setattr _ _ _ _ _ _ _ _ _ _ Ho).
  rewrite decide_True by done.
  repeat (split; [reflexivity|]).
  exists resp. rewrite Hpend. by repeat split.
Qed.

(** X10. Whatever the instance and the state, each of the three listing
    methods either raises before the session is used, the world as it
    was (so on every instance straight out of the constructor), or makes
    exactly one GET without body and without parameters of its own, on
    [db], [cluster_admins] and [db/<database>/users]. On status 200
    [get_database_list] returns [json.loads] of the raw body as it is,
    without the second attempt on the decoded bytes that [query] has, so
    whatever [json.loads] raises on the raw body comes out; the other two
    return what [response.json()] of the requests library makes of the
    body. On another status all three raise [InfluxDBClientError] and
    decode nothing. *)
Theorem X10_listings_decode_the_body_once self w :
  ((∃ e, get_database_list self w = (Raise e, w)) ∨
   (∃ baseurl u p headers verify timeout,
      attr w self "_baseurl" = Some baseurl ∧
      attr w self "_username" = Some u ∧
      attr w self "_password" = Some p ∧
      attr w self "_headers" = Some headers ∧
      attr w self "_verify_ssl" = Some verify ∧
      attr w self "_timeout" = Some timeout ∧
      get_database_list self w =
      (match request_outcome (w_pending w) 200 with
       | Ok resp => json_loads (resp_content resp)
       | Raise e => Raise e
       end,
       after_exchange
         (HttpCall "GET" (py_str baseurl +:+ "/" +:+ "db") (sent_params None u p)
            None headers verify timeout) w))) ∧
  ((∃ e, get_list_cluster_admins self w = (Raise e, w)) ∨
   (∃ baseurl u p headers verify timeout,
      attr w self "_baseurl" = Some baseurl ∧
      attr w self "_username" = Some u ∧
      attr w self "_password" = Some p ∧
      attr w self "_headers" = Some headers ∧
      attr w self "_verify_ssl" = Some verify ∧
      attr w self "_timeout" = Some timeout ∧
      get_list_cluster_admins self w =
      (match request_outcome (w_pending w) 200 with
       | Ok resp => requests_json (resp_content resp)
       | Raise e => Raise e
       end,
       after_exchange
         (HttpCall "GET" (py_str baseurl +:+ "/" +:+ "cluster_admins")
            (sent_params None u p) None headers verify timeout) w))) ∧
  ((∃ e, get_database_users self w = (Raise e, w)) ∨
   (∃ database baseurl u p headers verify timeout,
      attr w self "_database" = Some database ∧
      attr w self "_baseurl" = Some baseurl ∧
      attr w self "_username" = Some u ∧
      attr w self "_password" = Some p ∧
      attr w self "_headers" = Some headers ∧
      attr w self "_verify_ssl" = Some verify ∧
      attr w self "_timeout" = Some timeout ∧
      get_database_users self w =
      (match request_outcome (w_pending w) 200 with
       | Ok resp => requests_json (resp_content resp)
       | Raise e => Raise e
       end,
       after_exchange
         (HttpCall "GET"
            (py_str baseurl +:+ "/" +:+ "db/" +:+ py_str database +:+ "/users")
            (sent_params None u p) None headers verify timeout) w))).
Proof.
  split; [|split].
  - destruct (request_bind_cases self "db" "GET" None VNone 200
                (λ r, json_loads (resp_content r)) w)
      as [He|(b & u & p & body & h & v & t
              & Hb & Hu & Hp & Hbody & Hh & Hv & Ht & Hrun)]; [by left|right].
    injection Hbody as <-. by exists b, u, p, h, v, t.
  - destruct (request_bind_cases self "cluster_admins" "GET" None VNone 200
                (λ r, requests_json (resp_content r)) w)
      as [He|(b & u & p & body & h & v & t
              & Hb & Hu & Hp & Hbody & Hh & Hv & Ht & Hrun)]; [by left|right].
    injection Hbody as <-. by exists b, u, p, h, v, t.
  - unfold get_database_users.
    destruct (attr w self "_database") as [d|] eqn:Hd; cycle 1.
    { left. eexists. by apply bind_getattr_missing. }
    erewrite (bind_getattr self "_database") by exact Hd.
    destruct (request_bind_cases self ("db/" +:+ py_str d +:+ "/users") "GET"
                None VNone 200 (λ r, requests_json (resp_content r)) w)
      as [He|(b & u & p & body & h & v & t
              & Hb & Hu & Hp & Hbody & Hh & Hv & Ht & Hrun)]; [by left|right].
    injection Hbody as <-. by exists d, b, u, p, h, v, t.
Qed.

(** X12. A [query] that is answered with a status other than 200 raises
    [InfluxDBClientError] with the body and that status, the response
    consumed and nothing decoded; answered with 200 and a body that
    [json.loads] rejects with an error other than [TypeError], it raises
    that error. *)
Theorem X12_query_errors
    self q time_precision chunked w
    baseurl u p database headers verify timeout resp rest :
  str_in time_precision "smu" = true →
  attr w self "_database" = Some database →
  attr w self "_baseurl" = Some baseurl →
  attr w self "_username" = Some u →
  attr w self "_password" = Some p →
  attr w self "_headers" = Some headers →
  attr w self "_verify_ssl" = Some verify →
  attr w self "_timeout" = Some timeout →
  w_pending w = resp :: rest →
  let r := query self q time_precision chunked w in
  w_pending r.2 = rest ∧
  length (w_session r.2) = S (length (w_session w)) ∧
  (resp_status_code resp ≠ 200 →
   r.1 = Raise (InfluxDBClientError (resp_content resp) (resp_status_code resp))) ∧
  (∀ e, resp_status_code resp = 200 →
        json_loads (resp_content resp) = Raise e → e ≠ TypeError →
        r.1 = Raise e).
Proof.
  intros Hin Hdb Hb Hu Hp Hh Hv Ht Hpend r. subst r.
  erewrite query_run by eassumption.
  cbn [fst snd w_pending w_session].
  split; [reflexivity|].
  split; [rewrite length_app; cbn; lia|].
  split.
  - intros Hcode. by rewrite bool_decide_eq_true_2.
  - intros e Hcode He Hne.
    rewrite bool_decide_eq_false_2 by (intros Hn; by apply Hn).
    unfold decoded_body. rewrite He.
    destruct e; first [reflexivity | by destruct Hne].
Qed.

(** ** Which password the next request carries *)

Lemma update_password_ok_attrs self username new_password w w1 :
  update_database_user_password self username new_password w = (Ok tt, w1) →
  attr w self "_username" = Some (VStr username) →
  attr w1 self "_password" = Some (VStr new_password) ∧
  attr w1 self "_username" = Some (VStr username).
Proof.
  rewrite update_password_run. intros Hrun Hown.
  destruct (attr w self "_database") as [database|]; [|discriminate].
  pose proof (request_heap self
    ("db/" +:+ py_str database +:+ "/users/" +:+ username) "POST" None
    (VDict {[ "password" := VStr new_password ]}) 200 w) as Hheap.
  destruct (request self _ "POST" None _ 200 w) as [[resp|e] w2];
    [|discriminate].
  cbn [snd] in Hheap. rewrite Hown in Hrun.
  assert (str_eq username (VStr username) = true) as Heq by (by apply str_eq_true).
  rewrite Heq, setattr_run in Hrun.
  destruct (w_heap w2 !! self) as [o|] eqn:Ho; [|discriminate].
  injection Hrun as <-.
  destruct w2 as [h2 s2 p2 k2]. cbn [w_heap] in *. unfold set_heap.
  cbn [w_heap w_session w_pending w_sockets].
  rewrite !(attr_after_setattr _ _ _ _ _ _ _ _ _ _ Ho).
  rewrite decide_True by done.
  rewrite decide_False by (intros [_ ?]; discriminate).
  split; [reflexivity|].
  rewrite <- Hown. by apply attr_same_heap.
Qed.

Lemma update_cluster_admin_password_heap self username new_password :
  stable w_heap (update_cluster_admin_password self username new_password).
Proof. unfold update_cluster_admin_password. solve_stable. Qed.

(** The password a request carries when the caller passes none. *)
Lemma request_carries_stored_password
    self url method params data status_code w stored :
  attr w self "_password" = Some stored →
  given_params params !! "p" = None →
  w_session (request self url method params data status_code w).2 ≠ w_session w →
  ∃ c, w_session (request self url method params data status_code w).2 =
         w_session w ++ [c] ∧
       rq_params c !! "p" = Some stored.
Proof.
  intros Hstored Hgiven Hsent.
  destruct (request_cases self url method params data status_code w)
    as [[e He]|(b & u & p & body & h & v & t & _ & _ & Hp & _ & _ & _ & _ & Hrun)].
  { rewrite He in Hsent. by destruct Hsent. }
  rewrite Hstored in Hp. injection Hp as <-.
  eexists. rewrite Hrun, exchange_session. split; [reflexivity|].
  cbn [rq_params]. rewrite sent_params_auth by exact Hgiven. by simplify_map_eq.
Qed.

(** X5. The two password changes leave the client in different states.
    After a user has changed its own password with
    [update_database_user_password], every later request of the instance
    that reaches the server authenticates with the new password. After
    the same user has changed it with [update_cluster_admin_password], the
    instance goes on sending the old one. *)
Theorem X5_password_sent_after_a_password_change
    self username new_password old w w1 url method params data status_code :
  attr w self "_username" = Some (VStr username) →
  attr w self "_password" = Some old →
  given_params params !! "p" = None →
  w_session (request self url method params data status_code w1).2 ≠ w_session w1 →
  (update_database_user_password self username new_password w = (Ok tt, w1) →
   ∃ c, w_session (request self url method params data status_code w1).2 =
          w_session w1 ++ [c] ∧
        rq_params c !! "p" = Some (VStr new_password)) ∧
  (update_cluster_admin_password self username new_password w = (Ok tt, w1) →
   ∃ c, w_session (request self url method params data status_code w1).2 =
          w_session w1 ++ [c] ∧
        rq_params c !! "p" = Some old).
Proof.
  intros Hown Hold Hgiven Hsent. split; intros Hrun.
  - destruct (update_password_ok_attrs _ _ _ _ _ Hrun Hown) as [Hnew _].
    by apply request_carries_stored_password.
  - apply request_carries_stored_password; [|done..].
    rewrite <- Hold. apply attr_same_heap.
    pose proof (update_cluster_admin_password_heap self username new_password w)
      as Hheap.
    by rewrite Hrun in Hheap.
Qed.

(** X13. An unbatched [write_points] on an instance whose [use_udp] is
    false goes one of two ways, whatever the state. Either it raises
    before the session is used and the world is as it was: so with a
    precision the assertion refuses, and whenever a field is missing, as
    on every instance straight out of the constructor. Or it is exactly
    one POST of [json.dumps(data)] on [db/<database>/series] with the
    precision as its only parameter besides the auth pair, an empty
    collection included; it then returns nothing on status 200, whatever
    the body, raises [InfluxDBClientError] with the body and the status on
    any other status, and lets a transport failure through. *)
Theorem X13_http_write_outcome self data batch_size time_precision w v :
  batching batch_size = false →
  attr w self "use_udp" = Some v →
  truthy v = false →
  (∃ e, write_points self data batch_size time_precision w = (Raise e, w)) ∨
  (∃ payload baseurl database u p headers verify timeout,
     str_in time_precision "smu" = true ∧
     json_dumps (VList data) = Ok payload ∧
     attr w self "_database" = Some database ∧
     attr w self "_baseurl" = Some baseurl ∧
     attr w self "_username" = Some u ∧
     attr w self "_password" = Some p ∧
     attr w self "_headers" = Some headers ∧
     attr w self "_verify_ssl" = Some verify ∧
     attr w self "_timeout" = Some timeout ∧
     write_points self data batch_size time_precision w =
     (match request_outcome (w_pending w) 200 with
      | Ok _ => Ok tt
      | Raise e => Raise e
      end,
      after_exchange
        (HttpCall "POST"
           (py_str baseurl +:+ "/" +:+ "db/" +:+ py_str database +:+ "/series")
           (sent_params (Some {[ "time_precision" := VStr time_precision ]}) u p)
           (Some payload) headers verify timeout) w)).
Proof.
  intros Hb Hudp Hv.
  rewrite write_points_unbatched by exact Hb.
  rewrite write_points_whole_run, Hudp, Hv.
  destruct (str_in time_precision "smu"); [|left; eauto].
  destruct (attr w self "_database") as [database|]; [|left; eauto].
  destruct (request_bind_cases self ("db/" +:+ py_str database +:+ "/series")
              "POST" (Some {[ "time_precision" := VStr time_precision ]})
              (VList data) 200 (λ _, Ok tt) w)
    as [He|(b & u & p & body & h & ver & t
            & Hbase & Hu & Hp & Hbody & Hh & Hver & Ht & Hrun)]; [by left|right].
  cbn [request_body] in Hbody.
  destruct (json_dumps (VList data)) as [payload|] eqn:Hd; [|discriminate].
  injection Hbody as <-.
  by exists payload, b, database, u, p, h, ver, t.
Qed.

(** ** What the missing fields cost *)

(** What the constructor leaves to go by: the public names hold the
    arguments, the underscored ones are not there. *)
Lemma constructed_client_view
    host port username password database ssl verify_ssl timeout use_udp
    udp_port w :
  let r := __init__ host port username password database ssl verify_ssl
             timeout use_udp udp_port w in
  let self := length (w_heap w) in
  r.1 = Ok self ∧
  attr r.2 self "host" = Some host ∧
  attr r.2 self "username" = Some username ∧
  attr r.2 self "password" = Some password ∧
  attr r.2 self "database" = Some database ∧
  attr r.2 self "use_udp" = Some use_udp ∧
  attr r.2 self "_host" = None ∧
  attr r.2 self "_username" = None ∧
  attr r.2 self "_password" = None ∧
  attr r.2 self "_database" = None.
Proof.
  intros r self. subst r self. rewrite init_run. cbn [fst snd].
  rewrite !attr_last. split; [reflexivity|].
  unfold constructed_object.
  repeat split;
    destruct (truthy use_udp); destruct ssl as [|[]| | | | |]; by simplify_map_eq.
Qed.

Lemma write_points_without_database self data batch_size time_precision w :
  batching batch_size = false →
  attr w self "_database" = None →
  write_points self data batch_size time_precision w =
  (Raise (if str_in time_precision "smu"
          then AttributeError "_database" else AssertionError), w).
Proof.
  intros Hb Hdb. rewrite write_points_unbatched by exact Hb.
  rewrite write_points_whole_run, Hdb.
  destruct (str_in time_precision "smu"); reflexivity.
Qed.

Lemma query_without_database self q time_precision chunked w :
  attr w self "_database" = None →
  query self q time_precision chunked w =
  (Raise (if str_in time_precision "smu"
          then AttributeError "_database" else AssertionError), w).
Proof.
  intros Hdb. unfold query.
  destruct (str_in time_precision "smu"); [|reflexivity].
  rewrite bind_assert_true. by apply bind_getattr_missing.
Qed.

(** C6, what the code does. The exclusion holds on every instance: with
    [use_udp] true [write_points] never touches the session, with
    [use_udp] false it never touches a socket, and a call that returns
    without batching has sent exactly one datagram, resp. made exactly one
    POST. But on a client as [__init__] builds it no write goes out at
    all, over either transport: the constructor stores [database] and
    [host], [write_points] reads [_database] (and [send_packet] [_host]),
    and every unbatched write with an accepted precision raises
    [AttributeError] on [_database], the world untouched. *)
Theorem C6_transports_exclusive_but_constructed_client_sends_nothing
    host port username password database ssl verify_ssl timeout use_udp
    udp_port w0 :
  (∀ self data batch_size time_precision w v,
     attr w self "use_udp" = Some v →
     let r := write_points self data batch_size time_precision w in
     (truthy v = true →
        w_session r.2 = w_session w ∧ w_pending r.2 = w_pending w ∧
        (batching batch_size = false → r.1 = Ok tt →
           ∃ payload fd host port sent,
             json_dumps (VList data) = Ok payload ∧
             attr w self "udp_socket" = Some (VSock fd) ∧
             attr w self "_host" = Some host ∧
             attr w self "udp_port" = Some port ∧
             w_sockets w !! fd = Some sent ∧
             r.2 = set_sockets
                     (<[fd := sent ++ [Datagram (encode_utf8 payload) host port]]>
                        (w_sockets w)) w)) ∧
     (truthy v = false →
        w_sockets r.2 = w_sockets w ∧
        (batching batch_size = false → r.1 = Ok tt →
           ∃ payload baseurl database u p headers verify timeout rest,
             json_dumps (VList data) = Ok payload ∧
             attr w self "_database" = Some database ∧
             attr w self "_baseurl" = Some baseurl ∧
             r.2 = World (w_heap w)
                     (w_session w ++
                        [HttpCall "POST"
                           (py_str baseurl +:+ "/" +:+ "db/" +:+ py_str database
                              +:+ "/series")
                           (sent_params
                              (Some {[ "time_precision" := VStr time_precision ]})
                              u p)
                           (Some payload) headers verify timeout])
                     rest (w_sockets w)))) ∧
  (let r0 := __init__ host port username password database ssl verify_ssl
               timeout use_udp udp_port w0 in
   ∃ self,
     r0.1 = Ok self ∧
     attr r0.2 self "use_udp" = Some use_udp ∧
     attr r0.2 self "database" = Some database ∧
     attr r0.2 self "host" = Some host ∧
     attr r0.2 self "_database" = None ∧
     attr r0.2 self "_host" = None ∧
     ∀ data batch_size time_precision,
       batching batch_size = false →
       write_points self data batch_size time_precision r0.2 =
       (Raise (if str_in time_precision "smu"
               then AttributeError "_database" else AssertionError), r0.2)).
Proof.
  split.
  - intros self data batch_size time_precision w v Hudp r.
    destruct (write_points_by_transport self data batch_size time_precision w v
                Hudp) as [Hon Hoff].
    split; intros Hv.
    + destruct (Hon Hv) as ([Hs Hp] & Hback & _). by repeat split.
    + destruct (Hoff Hv) as (Hs & Hback & _). by split.
  - intros r0.
    destruct (constructed_client_view host port username password database ssl
                verify_ssl timeout use_udp udp_port w0)
      as (Hself & Hhost & _ & _ & Hdb & Hudp & Hnohost & _ & _ & Hnodb).
    exists (length (w_heap w0)). repeat (split; [assumption|]).
    intros data batch_size time_precision Hb.
    by apply write_points_without_database.
Qed.

(** C9, what the code does. Whatever the constructor was given, and
    whatever the network has ready, a [query] on the client it built
    issues no GET and returns nothing: the constructor stores [database],
    [query] reads [_database], and the call raises [AttributeError] on it
    right after the precision assertion, the world untouched. *)
Theorem C9_constructed_client_query_issues_no_get
    host port username password database ssl verify_ssl timeout use_udp
    udp_port w0 q time_precision chunked :
  let r0 := __init__ host port username password database ssl verify_ssl
              timeout use_udp udp_port w0 in
  ∃ self,
    r0.1 = Ok self ∧
    attr r0.2 self "database" = Some database ∧
    attr r0.2 self "_database" = None ∧
    w_pending r0.2 = w_pending w0 ∧
    query self q time_precision chunked r0.2 =
    (Raise (if str_in time_precision "smu"
            then AttributeError "_database" else AssertionError), r0.2).
Proof.
  intros r0.
  destruct (constructed_client_view host port username password database ssl
              verify_ssl timeout use_udp udp_port w0)
    as (Hself & _ & _ & _ & Hdb & _ & _ & _ & _ & Hnodb).
  exists (length (w_heap w0)). repeat (split; [assumption|]).
  split.
  { subst r0. by rewrite init_run. }
  by apply query_without_database.
Qed.

(** C7, what the code does. The frame holds on every instance: no call
    changes any attribute of any instance other than [_password] of the
    instance called, and no method but [update_database_user_password]
    changes anything at all. But the rotation promised for the configured
    username never happens on a client as [__init__] builds it: the
    constructor stores [username], [password] and [database], the method
    reads [_database] and [_username], and for every username, the
    configured one included, the call raises [AttributeError] on
    [_database] and the stored credentials are as they were. *)
Theorem C7_frame_holds_but_constructed_client_never_rotates
    host port username password database ssl verify_ssl timeout use_udp
    udp_port w0 :
  (∀ self op w,
     let r := call self op w in
     (∀ l name, l ≠ self ∨ name ≠ "_password" → attr r.2 l name = attr w l name) ∧
     ((∀ u p, op ≠ UpdateDatabaseUserPassword u p) → w_heap r.2 = w_heap w)) ∧
  (let r0 := __init__ host port username password database ssl verify_ssl
               timeout use_udp udp_port w0 in
   ∃ self,
     r0.1 = Ok self ∧
     attr r0.2 self "username" = Some username ∧
     attr r0.2 self "password" = Some password ∧
     attr r0.2 self "_username" = None ∧
     attr r0.2 self "_password" = None ∧
     ∀ u new_password,
       call self (UpdateDatabaseUserPassword u new_password) r0.2 =
       (Raise (AttributeError "_database"), r0.2)).
Proof.
  split.
  - intros self op w r. split.
    + intros l name Hl. by apply call_attr_frame.
    + intros Hop. by apply call_heap.
  - intros r0.
    destruct (constructed_client_view host port username password database ssl
                verify_ssl timeout use_udp udp_port w0)
      as (Hself & _ & Huser & Hpw & _ & _ & _ & Hnouser & Hnopw & Hnodb).
    exists (length (w_heap w0)). repeat (split; [assumption|]).
    intros u new_password. subst r0. cbn [call]. unfold returning_none.
    apply bind_fail. rewrite update_password_run, Hnodb. reflexivity.
Qed.

(** C10, what the code does. [batch_size=0] is the same call as
    [batch_size=None] on every instance: the zero is false, the batching
    branch is skipped and the call is the assertion followed by the one
    send of the whole collection, which uses a transport at most once and
    exactly once when it returns; a call that returns has sent the
    serialisation of the whole [data] in one datagram or one POST, and on
    an HTTP instance whose fields are in place, answered with 200, the
    call does return. But on a client as [__init__] builds it that send
    never happens: the call raises [AttributeError] on [_database] and
    neither a POST nor a datagram goes out. *)
Theorem C10_zero_is_no_batching_but_constructed_client_sends_nothing
    host port username password database ssl verify_ssl timeout use_udp
    udp_port w0 :
  (∀ self data time_precision w,
     write_points self data (Some 0) time_precision w =
       write_points self data None time_precision w ∧
     write_points self data (Some 0) time_precision w =
       (py_assert (str_in time_precision "smu") >>
        write_points_send self data time_precision) w ∧
     (transport_calls (write_points self data (Some 0%Z) time_precision w).2
      ≤ transport_calls w + 1)%nat ∧
     ((write_points self data (Some 0) time_precision w).1 = Ok tt →
      transport_calls (write_points self data (Some 0%Z) time_precision w).2
      = (transport_calls w + 1)%nat)) ∧
  (∀ self data time_precision w v,
     attr w self "use_udp" = Some v →
     let r := write_points self data (Some 0) time_precision w in
     (r.1 = Ok tt →
      ∃ payload,
        json_dumps (VList data) = Ok payload ∧
        if truthy v
        then ∃ fd host port sent,
               attr w self "udp_socket" = Some (VSock fd) ∧
               attr w self "_host" = Some host ∧
               attr w self "udp_port" = Some port ∧
               w_sockets w !! fd = Some sent ∧
               r.2 = set_sockets
                       (<[fd := sent ++ [Datagram (encode_utf8 payload) host port]]>
                          (w_sockets w)) w
        else ∃ baseurl database u p headers verify timeout rest,
               attr w self "_database" = Some database ∧
               attr w self "_baseurl" = Some baseurl ∧
               r.2 = World (w_heap w)
                       (w_session w ++
                          [HttpCall "POST"
                             (py_str baseurl +:+ "/" +:+ "db/" +:+ py_str database
                                +:+ "/series")
                             (sent_params
                                (Some {[ "time_precision" := VStr time_precision ]})
                                u p)
                             (Some payload) headers verify timeout])
                       rest (w_sockets w)) ∧
     (∀ payload baseurl database u p headers verify timeout resp rest,
        truthy v = false →
        str_in time_precision "smu" = true →
        attr w self "_database" = Some database →
        attr w self "_baseurl" = Some baseurl →
        attr w self "_username" = Some u →
        attr w self "_password" = Some p →
        json_dumps (VList data) = Ok payload →
        attr w self "_headers" = Some headers →
        attr w self "_verify_ssl" = Some verify →
        attr w self "_timeout" = Some timeout →
        w_pending w = resp :: rest →
        resp_status_code resp = 200 →
        r = (Ok tt,
             World (w_heap w)
               (w_session w ++
                  [HttpCall "POST"
                     (py_str baseurl +:+ "/" +:+ "db/" +:+ py_str database
                        +:+ "/series")
                     (sent_params
                        (Some {[ "time_precision" := VStr time_precision ]}) u p)
                     (Some payload) headers verify timeout])
               rest (w_sockets w)))) ∧
  (let r0 := __init__ host port username password database ssl verify_ssl
               timeout use_udp udp_port w0 in
   ∃ self,
     r0.1 = Ok self ∧
     ∀ data time_precision,
       write_points self data (Some 0) time_precision r0.2 =
       (Raise (if str_in time_precision "smu"
               then AttributeError "_database" else AssertionError), r0.2)).
Proof.
  split; [|split].
  - intros self data time_precision w.
    split; [reflexivity|]. split; [reflexivity|].
    rewrite write_points_unbatched by reflexivity.
    apply write_points_whole_transport_calls.
  - intros self data time_precision w v Hudp r.
    destruct (write_points_by_transport self data (Some 0) time_precision w v
                Hudp) as [Hon Hoff].
    fold r in Hon, Hoff. split.
    + intros Hok. destruct (truthy v) eqn:Hv.
      * destruct (Hon eq_refl) as (_ & Hback & _).
        destruct (Hback eq_refl Hok)
          as (payload & fd & h & p & sent & Hd & Hrest).
        exists payload. split; [exact Hd|]. by exists fd, h, p, sent.
      * destruct (Hoff eq_refl) as (_ & Hback & _).
        destruct (Hback eq_refl Hok)
          as (payload & b & d & u & p & hs & vf & t & rest & Hd & Hrest).
        exists payload. split; [exact Hd|]. by exists b, d, u, p, hs, vf, t, rest.
    + intros payload b d u p hs vf t resp rest Hv Hprec.
      destruct (Hoff Hv) as (_ & _ & Hfwd).
      by apply Hfwd.
  - intros r0.
    destruct (constructed_client_view host port username password database ssl
                verify_ssl timeout use_udp udp_port w0)
      as (Hself & _ & _ & _ & _ & _ & _ & _ & _ & Hnodb).
    exists (length (w_heap w0)). split; [assumption|].
    intros data time_precision.
    by apply write_points_without_database.
Qed.

End Properties.

(** * The client at work *)

(** C3, what the code does. The precision check is [time_precision in
    "smu"], a substring test, so the empty string and ["sm"], ["mu"],
    ["smu"] pass it although none of them is one of the three letters. A
    batched write of no data with precision ["sm"] returns normally on any
    instance; and on an instance whose fields are in place a write with
    precision ["sm"] and a query with the empty precision both reach the
    server, carrying that precision. A precision that fails the substring
    test is rejected as promised, with [AssertionError] and before
    anything else happens. *)
Theorem C3_substrings_of_smu_pass_the_precision_check :
  (str_in "" "smu" = true ∧ str_in "sm" "smu" = true ∧
   str_in "mu" "smu" = true ∧ str_in "smu" "smu" = true) ∧
  (∀ (L : PyLib) self w,
     write_points self [] (Some 1) "sm" w = (Ok tt, w)) ∧
  (∀ (L : PyLib) self data batch_size q chunked time_precision w,
     str_in time_precision "smu" = false →
     write_points self data batch_size time_precision w =
       (Raise AssertionError, w) ∧
     query self q time_precision chunked w = (Raise AssertionError, w)) ∧
  (let r := write_points 0%nat [cpu_dataset] None "sm"
              (with_pending [Response 200 ""] http_world) in
   r.1 = Ok tt ∧
   (λ c, (rq_method c, rq_url c, rq_params c !! "time_precision"))
     <$> w_session r.2 =
   [("POST", "http://localhost:8086/db/mydb/series", Some (VStr "sm"))]) ∧
  (let r := query 0%nat "select * from cpu" "" false
              (with_pending [Response 200 "[]"] http_world) in
   r.1 = Ok (VList []) ∧
   (λ c, (rq_method c, rq_url c, rq_params c !! "time_precision"))
     <$> w_session r.2 =
   [("GET", "http://localhost:8086/db/mydb/series", Some (VStr ""))]).
Proof.
  split; [repeat split; reflexivity|].
  split; [intros L self w; reflexivity|].
  split.
  { intros L self data batch_size q chunked time_precision w Hout.
    unfold write_points, query. rewrite Hout. split; reflexivity. }
  split; vm_compute; split; reflexivity.
Qed.

(** C4, as stated, fails: with [_username] and [_password] both ["root"],
    a request whose caller passes [u = "eve"] sends [u = "eve"] and
    [p = "root"] and nothing more; the auth value of [u] is not sent. *)
Lemma C4_caller_value_for_u_replaces_the_auth_value :
  attr http_world 0%nat "_username" = Some (VStr "root") ∧
  w_session
    (request 0%nat "db" "GET" (Some {[ "u" := VStr "eve" ]}) VNone 200
       (with_pending [Response 200 "[]"] http_world)).2 =
  [HttpCall "GET" "http://localhost:8086/db"
     (<["u" := VStr "eve"]> (<["p" := VStr "root"]> ∅))
     None default_headers (VBool false) VNone].
Proof. split; vm_compute; reflexivity. Qed.

(** C8, as stated, fails: two distinct instances, at addresses 0 and 1;
    a call on the first and a call on the second both write the one
    session, which after the two calls holds the POST of the first
    followed by the GET of the second, and both consume the responses of
    the one network. *)
Lemma C8_two_instances_write_the_same_session :
  let w := with_pending [Response 201 ""; Response 200 "[]"] two_clients_world in
  let w1 := (create_database 0%nat "metrics" w).2 in
  let w2 := (get_database_list 1%nat w1).2 in
  (0 ≠ 1)%nat ∧
  length (w_heap w) = 2%nat ∧
  w_session w = [] ∧
  rq_method <$> w_session w1 = ["POST"] ∧
  rq_method <$> w_session (get_database_list 1%nat w).2 = ["GET"] ∧
  rq_method <$> w_session w2 = ["POST"; "GET"] ∧
  w_pending w2 = [].
Proof. vm_compute. repeat split; (reflexivity || discriminate). Qed.

(** ** The theorems on the sample instances *)

(** C2 on [InfluxDBClient()] with its defaults: a query on the fresh
    instance, issued after a failed listing of the databases, stops at the
    lookup of a missing attribute. *)
Lemma C2_default_client_cannot_query :
  reaches_send_path (Query "select * from cpu" "s" false) = true ∧
  let r := __init__ (VStr "localhost") (VInt 8086) (VStr "root") (VStr "root")
             VNone (VBool false) (VBool false) VNone (VBool false) (VInt 4444)
             empty_world in
  ∃ self, r.1 = Ok self ∧
    (∀ name, name ∈ private_fields → attr r.2 self name = None) ∧
    (∀ name, name ∈ constructed_fields → is_Some (attr r.2 self name)) ∧
    after_calls self [GetDatabaseList] r.2 = r.2 ∧
    ∃ name, attr r.2 self name = None ∧
            call self (Query "select * from cpu" "s" false)
              (after_calls self [GetDatabaseList] r.2) =
            (Raise (AttributeError name), r.2).
Proof.
  split; [reflexivity|].
  apply (C2_constructed_client_raises_AttributeError
           (VStr "localhost") (VInt 8086) (VStr "root") (VStr "root")
           VNone (VBool false) (VBool false) VNone (VBool false) (VInt 4444)
           empty_world [GetDatabaseList] (Query "select * from cpu" "s" false)).
  reflexivity.
Defined.

(** C4 on the sample HTTP instance: a request without parameters of its
    own carries the auth pair. *)
Lemma C4_request_without_params_sends_auth :
  let w := with_pending [Response 200 "[]"] http_world in
  w_session (request 0%nat "db" "GET" None VNone 200 w).2 ≠ w_session w ∧
  ∃ c, w_session (request 0%nat "db" "GET" None VNone 200 w).2 = w_session w ++ [c] ∧
       rq_params c !! "u" = Some (VStr "root") ∧
       rq_params c !! "p" = Some (VStr "root").
Proof.
  intros w.
  assert (w_session (request 0%nat "db" "GET" None VNone 200 w).2 ≠ w_session w)
    as Hsent by (vm_compute; discriminate).
  split; [exact Hsent|].
  destruct (C4_caller_params_replace_auth 0%nat "db" "GET" None VNone 200 w Hsent)
    as (c & u & p & Hc & Hu & Hp & _ & Hcu & Hcp & _).
  exists c. split; [exact Hc|].
  assert (attr w 0%nat "_username" = Some (VStr "root")) as Hu'
    by (vm_compute; reflexivity).
  assert (attr w 0%nat "_password" = Some (VStr "root")) as Hp'
    by (vm_compute; reflexivity).
  rewrite Hu' in Hu. rewrite Hp' in Hp.
  injection Hu as <-. injection Hp as <-.
  split; [apply Hcu|apply Hcp]; reflexivity.
Defined.

(** C5 on the sample HTTP instance: a 500 where 200 is expected. *)
Lemma C5_server_error_is_raised_with_code_and_body :
  let w := with_pending [Response 500 "boom"] http_world in
  w_pending w = [Response 500 "boom"] ∧
  w_session (request 0%nat "db" "GET" None VNone 200 w).2 ≠ w_session w ∧
  (request 0%nat "db" "GET" None VNone 200 w).1 =
  Raise (InfluxDBClientError "boom" 500).
Proof.
  intros w.
  assert (w_session (request 0%nat "db" "GET" None VNone 200 w).2 ≠ w_session w)
    as Hsent by (vm_compute; discriminate).
  split; [reflexivity|]. split; [exact Hsent|].
  apply (C5_unexpected_status_raises_api_error 0%nat "db" "GET" None VNone 200 w
           (Response 500 "boom") [] eq_refl Hsent).
  discriminate.
Defined.

(** C8 on the two sample instances: a call on the first leaves the second
    as it was. *)
Lemma C8_second_instance_untouched_by_the_first :
  (0 ≠ 1)%nat ∧
  ∀ name,
    attr (call 0%nat (UpdateDatabaseUserPassword "root" "s3cret")
            (with_pending [Response 200 ""] two_clients_world)).2 1%nat name =
    attr (with_pending [Response 200 ""] two_clients_world) 1%nat name.
Proof.
  assert ((0 ≠ 1)%nat) as Hne by discriminate.
  split; [exact Hne|].
  destruct (C8_instances_share_the_session_and_nothing_else 0%nat 1%nat
              (with_pending [Response 200 ""] two_clients_world) Hne)
    as (_ & Hattr & _).
  apply Hattr.
Defined.

(** X14 on the sample HTTP instance. *)
Lemma X14_query_on_the_sample_instance :
  let w := with_pending [Response 200 "[]"] http_world in
  let r := query 0%nat "select * from cpu" "s" true w in
  str_in "s" "smu" = true ∧
  w_pending w = [Response 200 "[]"] ∧
  ∃ c, w_session r.2 = w_session w ++ [c] ∧
       rq_method c = "GET" ∧
       rq_params c !! "q" = Some (VStr "select * from cpu") ∧
       rq_params c !! "time_precision" = Some (VStr "s") ∧
       rq_params c !! "chunked" = Some (VBool true) ∧
       r.1 = Ok (VList []).
Proof.
  intros w r. split; [reflexivity|]. split; [reflexivity|].
  destruct (X14_query_with_fields_issues_get_and_decodes 0%nat "select * from cpu" "s" true w
              (VStr "http://localhost:8086") (VStr "root") (VStr "root")
              (VStr "mydb") default_headers (VBool false) VNone
              (Response 200 "[]") [])
    as (c & Hc & Hm & _ & _ & Hq & Ht & Hch & _ & Hdecode);
    try (vm_compute; reflexivity).
  exists c. repeat (split; [assumption|]).
  apply Hdecode; reflexivity.
Defined.

(** ** More of the client at work *)

(** X5 on the sample HTTP instance: [root] changes its own password, and
    the listing that follows carries the new one. *)
Lemma X5_listing_after_own_password_change :
  let w := with_pending [Response 200 ""; Response 200 "[]"] http_world in
  let w1 := (update_database_user_password 0%nat "root" "s3cret" w).2 in
  update_database_user_password 0%nat "root" "s3cret" w = (Ok tt, w1) ∧
  ∃ c, w_session (request 0%nat "db" "GET" None VNone 200 w1).2 =
         w_session w1 ++ [c] ∧
       rq_params c !! "p" = Some (VStr "s3cret").
Proof.
  intros w w1.
  assert (update_database_user_password 0%nat "root" "s3cret" w = (Ok tt, w1))
    as Hrun by (vm_compute; reflexivity).
  split; [exact Hrun|].
  assert (w_session (request 0%nat "db" "GET" None VNone 200 w1).2 ≠ w_session w1)
    as Hsent by (vm_compute; discriminate).
  apply (X5_password_sent_after_a_password_change 0%nat "root" "s3cret"
           (VStr "root") w w1 "db" "GET" None VNone 200);
    [vm_compute; reflexivity|vm_compute; reflexivity|reflexivity|exact Hsent
    |exact Hrun].
Defined.

(** X7 on the sample HTTP instance: the server answers [create_database]
    with 200 instead of 201, and the call raises, the request made. *)
Lemma X7_create_database_rejects_a_200 :
  let w := with_pending [Response 200 "ok"] http_world in
  administrative (CreateDatabase "metrics") = true ∧
  (call 0%nat (CreateDatabase "metrics") w).1 =
    Raise (InfluxDBClientError "ok" 200) ∧
  rq_method <$> w_session (call 0%nat (CreateDatabase "metrics") w).2 = ["POST"].
Proof.
  intros w. split; [reflexivity|].
  destruct (X7_admin_methods_accept_only_their_status 0%nat
              (CreateDatabase "metrics") w eq_refl)
    as [[e He]|(method & url & data & expected & b & u & p & body & h & v & t
                & Hrow & _ & _ & _ & _ & _ & _ & _ & Hrun)].
  - apply (f_equal (λ r, length (w_session r.2))) in He.
    vm_compute in He. discriminate.
  - cbn [admin_request] in Hrow. injection Hrow as <- <- <- <-.
    rewrite Hrun. split; reflexivity.
Defined.

(** X8 on the sample HTTP instance, whose database is [mydb]. *)
Lemma X8_delete_database_reaches_a_series :
  let w := with_pending [Response 204 ""] http_world in
  attr w 0%nat "_database" = Some (VStr "mydb") ∧
  delete_database 0%nat "mydb/series/cpu" w = delete_series 0%nat "cpu" w ∧
  rq_url <$> w_session (delete_database 0%nat "mydb/series/cpu" w).2 =
    ["http://localhost:8086/db/mydb/series/cpu"].
Proof.
  intros w.
  assert (attr w 0%nat "_database" = Some (VStr "mydb")) as Hdb
    by (vm_compute; reflexivity).
  split; [exact Hdb|]. split.
  - exact (X8_database_name_is_spliced_into_the_path 0%nat (VStr "mydb") "cpu"
             w Hdb).
  - vm_compute. reflexivity.
Defined.

(** X9 on the sample HTTP instance: the stored password changes, so the
    server had answered 200. *)
Lemma X9_accepted_change_is_stored :
  let w := with_pending [Response 200 ""] http_world in
  let r := update_database_user_password 0%nat "root" "s3cret" w in
  attr r.2 0%nat "_password" ≠ attr w 0%nat "_password" ∧
  r.1 = Ok tt ∧
  attr r.2 0%nat "_password" = Some (VStr "s3cret").
Proof.
  intros w r.
  assert (attr r.2 0%nat "_password" ≠ attr w 0%nat "_password") as Hchanged
    by (vm_compute; discriminate).
  split; [exact Hchanged|].
  destruct (X9_password_rotated_only_after_acceptance 0%nat "root" "s3cret" w
              Hchanged) as (Hok & _ & Hnew & _).
  split; [exact Hok|exact Hnew].
Defined.

(** X12 on the sample HTTP instance: the server answers a query with 400. *)
Lemma X12_query_rejected_by_the_server :
  let w := with_pending [Response 400 "bad query"] http_world in
  str_in "s" "smu" = true ∧
  (query 0%nat "selekt" "s" false w).1 =
    Raise (InfluxDBClientError "bad query" 400).
Proof.
  intros w. split; [reflexivity|].
  pose proof (X12_query_errors 0%nat "selekt" "s" false w
                (VStr "http://localhost:8086") (VStr "root") (VStr "root")
                (VStr "mydb") default_headers (VBool false) VNone
                (Response 400 "bad query") []
                ltac:(reflexivity) ltac:(vm_compute; reflexivity)
                ltac:(vm_compute; reflexivity) ltac:(vm_compute; reflexivity)
                ltac:(vm_compute; reflexivity) ltac:(vm_compute; reflexivity)
                ltac:(vm_compute; reflexivity) ltac:(vm_compute; reflexivity)
                ltac:(reflexivity))
    as (_ & _ & Hcode & _).
  apply Hcode. discriminate.
Defined.

(** X13 on the sample HTTP instance: the server answers a write of no
    points at all with 500. *)
Lemma X13_rejected_write_of_nothing :
  let w := with_pending [Response 500 "no"] http_world in
  batching None = false ∧
  attr w 0%nat "use_udp" = Some (VBool false) ∧
  (write_points 0%nat [] None "s" w).1 = Raise (InfluxDBClientError "no" 500) ∧
  rq_data <$> w_session (write_points 0%nat [] None "s" w).2 = [Some "[]"].
Proof.
  intros w. split; [reflexivity|].
  assert (attr w 0%nat "use_udp" = Some (VBool false)) as Hudp
    by (vm_compute; reflexivity).
  split; [exact Hudp|].
  destruct (X13_http_write_outcome 0%nat [] None "s" w (VBool false)
              eq_refl Hudp eq_refl)
    as [[e He]|(payload & b & d & u & p & h & v & t
                & _ & Hd & _ & _ & _ & _ & _ & _ & _ & Hrun)].
  - apply (f_equal (λ r, length (w_session r.2))) in He.
    vm_compute in He. discriminate.
  - vm_compute in Hd. injection Hd as <-.
    rewrite Hrun. split; reflexivity.
Defined.

(** C6 on [InfluxDBClient(use_udp=True)]: the write of the sample dataset
    raises on [_database]; the socket the constructor opened has sent
    nothing and the session has not been used. *)
Lemma C6_udp_client_as_constructed_sends_no_datagram :
  let r0 := __init__ (VStr "localhost") (VInt 8086) (VStr "root") (VStr "root")
              VNone (VBool false) (VBool false) VNone (VBool true) (VInt 4444)
              empty_world in
  r0.1 = Ok 0%nat ∧
  attr r0.2 0%nat "use_udp" = Some (VBool true) ∧
  write_points 0%nat [cpu_dataset] None "s" r0.2 =
    (Raise (AttributeError "_database"), r0.2) ∧
  w_sockets r0.2 = [[]] ∧
  w_session r0.2 = [].
Proof.
  intros r0.
  destruct (C6_transports_exclusive_but_constructed_client_sends_nothing
              (VStr "localhost") (VInt 8086) (VStr "root") (VStr "root")
              VNone (VBool false) (VBool false) VNone (VBool true) (VInt 4444)
              empty_world)
    as [_ (self & Hself & Hudp & _ & _ & _ & _ & Hrun)].
  assert (self = 0%nat) as -> by (vm_compute in Hself; by injection Hself).
  split; [exact Hself|]. split; [exact Hudp|].
  split; [exact (Hrun [cpu_dataset] None "s" eq_refl)|].
  split; vm_compute; reflexivity.
Defined.

(** C7 on [InfluxDBClient()], whose username is ['root']: changing the
    password of ['root'] raises on [_database] although a 200 is waiting,
    and the instance holds the old password under [password] and nothing
    under [_password]. *)
Lemma C7_default_client_keeps_its_password :
  let r0 := __init__ (VStr "localhost") (VInt 8086) (VStr "root") (VStr "root")
              VNone (VBool false) (VBool false) VNone (VBool false) (VInt 4444)
              (with_pending [Response 200 "ok"] empty_world) in
  r0.1 = Ok 0%nat ∧
  attr r0.2 0%nat "username" = Some (VStr "root") ∧
  call 0%nat (UpdateDatabaseUserPassword "root" "secret") r0.2 =
    (Raise (AttributeError "_database"), r0.2) ∧
  attr r0.2 0%nat "password" = Some (VStr "root") ∧
  attr r0.2 0%nat "_password" = None ∧
  w_session r0.2 = [].
Proof.
  intros r0.
  destruct (C7_frame_holds_but_constructed_client_never_rotates
              (VStr "localhost") (VInt 8086) (VStr "root") (VStr "root")
              VNone (VBool false) (VBool false) VNone (VBool false) (VInt 4444)
              (with_pending [Response 200 "ok"] empty_world))
    as [_ (self & Hself & Huser & Hpw & _ & Hnopw & Hrun)].
  assert (self = 0%nat) as -> by (vm_compute in Hself; by injection Hself).
  split; [exact Hself|]. split; [exact Huser|].
  split; [exact (Hrun "root" "secret")|].
  split; [exact Hpw|]. split; [exact Hnopw|].
  vm_compute; reflexivity.
Defined.

(** C9 on [InfluxDBClient(database='mydb')] with a 200 waiting: the query
    raises on [_database], no GET is recorded and the response is still
    waiting. *)
Lemma C9_query_on_a_client_as_constructed :
  let r0 := __init__ (VStr "localhost") (VInt 8086) (VStr "root") (VStr "root")
              (VStr "mydb") (VBool false) (VBool false) VNone (VBool false)
              (VInt 4444) (with_pending [Response 200 "[]"] empty_world) in
  r0.1 = Ok 0%nat ∧
  attr r0.2 0%nat "database" = Some (VStr "mydb") ∧
  query 0%nat "select * from cpu" "s" false r0.2 =
    (Raise (AttributeError "_database"), r0.2) ∧
  w_session r0.2 = [] ∧
  w_pending r0.2 = [Response 200 "[]"].
Proof.
  intros r0.
  destruct (C9_constructed_client_query_issues_no_get
              (VStr "localhost") (VInt 8086) (VStr "root") (VStr "root")
              (VStr "mydb") (VBool false) (VBool false) VNone (VBool false)
              (VInt 4444) (with_pending [Response 200 "[]"] empty_world)
              "select * from cpu" "s" false)
    as (self & Hself & Hdb & _ & Hpend & Hrun).
  assert (self = 0%nat) as -> by (vm_compute in Hself; by injection Hself).
  split; [exact Hself|]. split; [exact Hdb|]. split; [exact Hrun|].
  split; [vm_compute; reflexivity|exact Hpend].
Defined.

(** C10 on [InfluxDBClient()] with a 200 waiting: the write of the sample
    dataset with [batch_size=0] raises on [_database] and no transport has
    been used. *)
Lemma C10_default_client_with_batch_size_zero :
  let r0 := __init__ (VStr "localhost") (VInt 8086) (VStr "root") (VStr "root")
              VNone (VBool false) (VBool false) VNone (VBool false) (VInt 4444)
              (with_pending [Response 200 "ok"] empty_world) in
  r0.1 = Ok 0%nat ∧
  write_points 0%nat [cpu_dataset] (Some 0) "s" r0.2 =
    (Raise (AttributeError "_database"), r0.2) ∧
  transport_calls r0.2 = 0%nat.
Proof.
  intros r0.
  destruct (C10_zero_is_no_batching_but_constructed_client_sends_nothing
              (VStr "localhost") (VInt 8086) (VStr "root") (VStr "root")
              VNone (VBool false) (VBool false) VNone (VBool false) (VInt 4444)
              (with_pending [Response 200 "ok"] empty_world))
    as (_ & _ & self & Hself & Hrun).
  assert (self = 0%nat) as -> by (vm_compute in Hself; by injection Hself).
  split; [exact Hself|]. split; [exact (Hrun [cpu_dataset] "s")|].
  vm_compute; reflexivity.
Defined.
